(** * adk-course: the weather tools and the HTTP query runner

    A shallow embedding of [src/weather_agent/agent.py] and [src/api/main.py].

    The repository is glue around external collaborators (the agent framework,
    the hosted model, the geocoder, the timezone index, the forecast provider,
    pandas).  Every collaborator is a field of an interface record whose
    operations return a [result], so that each of them may raise; the code of
    the repository is embedded over these interfaces, with Python's
    [try]/[except] written out. *)

From Stdlib Require Import ZArith String Ascii List Bool Lia.
From Stdlib Require Import Floats.PrimFloat.
From stdpp Require Import gmap strings list pretty.

Local Open Scope string_scope.

(* ===================================================================== *)
(** * Python values, exceptions and strings *)
(* ===================================================================== *)

Module Py.

(** Exceptions below [Exception].  [HTTPException] is FastAPI's; every other
    class is kept by name together with the text that [str(e)] gives. *)
Inductive exn :=
| HTTPException (status_code : nat) (detail : string)
| PyException (cls : string) (msg : string).

Definition str (e : exn) : string :=
  match e with
  | HTTPException c d => pretty c +:+ ": " +:+ d
  | PyException _ m => m
  end.

Definition HTTP_500_INTERNAL_SERVER_ERROR : nat := 500.

(** The outcome of a call: a value, or an exception on its way up. *)
Inductive result (A : Type) :=
| Return (a : A)
| Raise (e : exn).
Arguments Return {A} a.
Arguments Raise {A} e.

Definition bind {A B} (m : result A) (k : A -> result B) : result B :=
  match m with
  | Return a => k a
  | Raise e => Raise e
  end.

(** [try: body / except Exception as e: handler e]. *)
Definition try_except {A} (body : result A) (handler : exn -> result A)
  : result A :=
  match body with
  | Return a => Return a
  | Raise e => handler e
  end.

(** [None.attr] *)
Definition NoneType_has_no (attr : string) : exn :=
  PyException "AttributeError"
    ("'NoneType' object has no attribute '" +:+ attr +:+ "'").

(** Values that the tools put in the dicts they return. *)
#[warnings="-register-all"]
Inductive pyval :=
| PStr (s : string)
| PFloat (f : float)
| PTimestamp (seconds : Z)
| PTuple (xs : list pyval)
| PList (xs : list pyval)
| PDict (d : gmap string pyval).

(** Truth value of a [str]. *)
Definition truthy (s : string) : bool :=
  match s with
  | EmptyString => false
  | String _ _ => true
  end.

(** ** [str.strip] and [str.title]

    A Python [str] is held as its UTF-8 text in a [string].  The two methods
    are Unicode-aware built-ins; the code is embedded over them as they are
    ([Builtins], below).  What follows is what they do on 7-bit text, where
    white space is 9-13 and 28-32 and the cased characters are the letters
    A-Z and a-z: [ascii_strip] and [ascii_title] are the reference for such
    text only, and say nothing of a string with a byte above 127. *)

Definition ascii_isspace (c : ascii) : bool :=
  let n := nat_of_ascii c in
  ((9 <=? n)%nat && (n <=? 13)%nat) || ((28 <=? n)%nat && (n <=? 32)%nat).

Definition ascii_islower (c : ascii) : bool :=
  let n := nat_of_ascii c in (97 <=? n)%nat && (n <=? 122)%nat.

Definition ascii_isupper (c : ascii) : bool :=
  let n := nat_of_ascii c in (65 <=? n)%nat && (n <=? 90)%nat.

Definition ascii_is_cased (c : ascii) : bool := ascii_islower c || ascii_isupper c.

Definition ascii_to_upper (c : ascii) : ascii :=
  if ascii_islower c then ascii_of_nat (nat_of_ascii c - 32) else c.

Definition ascii_to_lower (c : ascii) : ascii :=
  if ascii_isupper c then ascii_of_nat (nat_of_ascii c + 32) else c.

Fixpoint ascii_lstrip (s : string) : string :=
  match s with
  | EmptyString => EmptyString
  | String c s' => if ascii_isspace c then ascii_lstrip s' else s
  end.

Fixpoint ascii_rstrip (s : string) : string :=
  match s with
  | EmptyString => EmptyString
  | String c s' =>
      match ascii_rstrip s' with
      | EmptyString => if ascii_isspace c then EmptyString else String c EmptyString
      | r => String c r
      end
  end.

Definition ascii_strip (s : string) : string := ascii_lstrip (ascii_rstrip s).

(** CPython's loop: a character after a cased one is lowered, any other is
    title-cased (upper-cased, in ASCII). *)
Fixpoint ascii_title_from (previous_is_cased : bool) (s : string) : string :=
  match s with
  | EmptyString => EmptyString
  | String c s' =>
      String (if previous_is_cased then ascii_to_lower c else ascii_to_upper c)
             (ascii_title_from (ascii_is_cased c) s')
  end.

Definition ascii_title (s : string) : string := ascii_title_from false s.


Fixpoint ascii_upper (s : string) : string :=
  match s with
  | EmptyString => EmptyString
  | String c s' => String (ascii_to_upper c) (ascii_upper s')
  end.

Fixpoint ascii_all_space (s : string) : bool :=
  match s with
  | EmptyString => true
  | String c s' => ascii_isspace c && ascii_all_space s'
  end.

(** Every character is below 128. *)
Fixpoint is_ascii (s : string) : bool :=
  match s with
  | EmptyString => true
  | String c s' => (nat_of_ascii c <? 128)%nat && is_ascii s'
  end.

(** The built-in methods of [str] that the code calls: [s.strip()] and
    [s.title()], over all of Unicode.  They do not raise. *)
Record Builtins := {
  str_strip : string -> string;
  str_title : string -> string
}.

(** On 7-bit text the built-ins are the ASCII reference. *)
Definition ascii_conformant (py : Builtins) : Prop :=
  forall s, is_ascii s = true ->
    str_strip py s = ascii_strip s /\ str_title py s = ascii_title s.

End Py.

Export Py.

(** [x ← m; k] is stdpp's notation for [mbind]. *)
#[export] Instance result_ret : MRet result := @Return.
#[export] Instance result_bind : MBind result := fun A B k m => bind m k.

(* ===================================================================== *)
(** * The agent framework (google.adk), as this code sees it *)
(* ===================================================================== *)

Module Adk.

(** A tool is a Python function handed to the agent: its name and what a call
    with positional arguments gives. *)
Record Tool := {
  tool_name : string;
  tool_call : list pyval -> result pyval
}.

Record LlmAgent := {
  name : string;
  model : string;
  tools : list Tool;
  description : string;
  instruction : string
}.

Record Part := { text : option string }.

Record Content := { role : string; parts : list Part }.

(** An event of the runner.  [is_final_response] is [None] for an object
    without that attribute; [content] is [None] when the attribute is missing
    or holds [None]. *)
Record Event := {
  is_final_response : option bool;
  content : option Content
}.

(** The generator that [Runner.run] returns: it yields events, and ends by
    exhaustion or by raising. *)
Inductive EventStream :=
| Exhausted
| Yield (event : Event) (rest : EventStream)
| Throws (e : exn).

Fixpoint yield_all (events : list Event) (rest : EventStream) : EventStream :=
  match events with
  | [] => rest
  | ev :: events' => Yield ev (yield_all events' rest)
  end.

Record Session := { s_id : string; s_app_name : string; s_user_id : string }.

Record Runner := { r_agent : LlmAgent; r_app_name : string }.

(** The session service and the runner over a service state [S].  Every
    operation may raise, and may change the state. *)
Class Framework (S : Type) := {
  new_session_service : S;
  get_session : string -> string -> string -> S -> result (option Session) * S;
  create_session : string -> string -> S -> result Session * S;
  runner_run : Runner -> string -> string -> Content -> S -> result EventStream * S
}.

(** ** [InMemorySessionService] and a runner on top of it

    [uuid4 n] is the n-th identifier that [uuid.uuid4()] draws; [llm] is the
    hosted model together with the framework's tool loop. *)
Record InMemorySessionService := {
  sessions : gmap (string * string * string) Session;
  drawn : nat
}.

Definition in_memory_get_session (app_name user_id session_id : string)
    (ss : InMemorySessionService)
  : result (option Session) * InMemorySessionService :=
  (Return (sessions ss !! (app_name, user_id, session_id)), ss).

Definition in_memory_create_session (uuid4 : nat -> string)
    (app_name user_id : string) (ss : InMemorySessionService)
  : result Session * InMemorySessionService :=
  let session :=
    {| s_id := uuid4 (drawn ss); s_app_name := app_name; s_user_id := user_id |} in
  (Return session,
   {| sessions := <[(app_name, user_id, s_id session) := session]> (sessions ss);
      drawn := S (drawn ss) |}).

Definition in_memory_runner_run
    (llm : LlmAgent -> string -> string -> Content -> EventStream)
    (r : Runner) (user_id session_id : string) (new_message : Content)
    (ss : InMemorySessionService)
  : result EventStream * InMemorySessionService :=
  match sessions ss !! (r_app_name r, user_id, session_id) with
  | None =>
      (Return (Throws (PyException "ValueError"
                         ("Session not found: " +:+ session_id))), ss)
  | Some _ => (Return (llm (r_agent r) user_id session_id new_message), ss)
  end.

Definition InMemory (uuid4 : nat -> string)
    (llm : LlmAgent -> string -> string -> Content -> EventStream)
  : Framework InMemorySessionService := {|
  new_session_service := {| sessions := ∅; drawn := 0 |};
  get_session := in_memory_get_session;
  create_session := in_memory_create_session uuid4;
  runner_run := in_memory_runner_run llm
|}.

End Adk.

Export Adk.

(* ===================================================================== *)
(** * src/weather_agent/agent.py *)
(* ===================================================================== *)

Module WeatherAgent.

Definition MODEL_GEMINI_2_0_FLASH := "gemini-2.0-flash".
Definition FORECAST_API_URL := "https://api.open-meteo.com/v1/forecast".

(** geopy's [Location]. *)
Record Location := { latitude : float; longitude : float }.

Record tzinfo := { zone : string }.

(** openmeteo's response: [Hourly()] and [Variables(i)] give [None] when the
    table is absent. *)
Record VariableWithValues := { ValuesAsNumpy : list float }.

Record VariablesWithTime := {
  hourly_Time : Z;
  hourly_TimeEnd : Z;
  hourly_Interval : Z;
  hourly_Variables : list VariableWithValues
}.

Record WeatherApiResponse := { Hourly : option VariablesWithTime }.

Record Params := {
  p_latitude : float;
  p_longitude : float;
  p_hourly : string;
  p_timezone : string
}.

(** The services behind the three tools. *)
Record Backends := {
  (** [TimezoneFinder().timezone_at(lat=, lng=)] *)
  timezone_at : float -> float -> result (option string);
  (** [pytz.timezone(name)] *)
  pytz_timezone : string -> result tzinfo;
  (** [datetime.now(tz).isoformat(timespec="seconds")] *)
  now_isoformat : tzinfo -> result string;
  (** [Nominatim(user_agent="geoapi").geocode(query)] *)
  geocode : string -> result (option Location);
  (** [openmeteo.weather_api(url, params=params)], behind the cache and the
      retrying session *)
  weather_api : string -> Params -> result (list WeatherApiResponse)
}.

Definition error_dict (error_message : string) : gmap string pyval :=
  <["status" := PStr "error"]> (<["error_message" := PStr error_message]> ∅).

(** ** pandas *)

(** [numpy.arange(start, stop, step)] on integers, [step] not zero. *)
Definition np_arange (start stop step : Z) : list Z :=
  let n := Z.to_nat (- ((start - stop) / step)) in
  map (fun j => (start + Z.of_nat j * step)%Z) (seq 0 n).

(** [generate_regular_range] for a fixed stride, both ends given. *)
Definition generate_regular_range (istart iend stride : Z) : result (list Z) :=
  if (stride =? 0)%Z then
    Raise (PyException "ZeroDivisionError" "integer division or modulo by zero")
  else
    let b := istart in
    let e := (b + (iend - b) / stride * stride + stride / 2 + 1)%Z in
    Return (np_arange b e stride).

(** [pd.date_range(start=, end=, freq=, inclusive="left")]: the right end
    point is dropped when it was generated, unless [start = end].  Time stamps
    are seconds since the epoch (pandas counts nanoseconds, a change of
    unit). *)
Definition date_range_left (start end_ freq : Z) : result (list Z) :=
  i8values ← generate_regular_range start end_ freq;
  mret (if (start =? end_)%Z then i8values
        else match last i8values with
             | Some l => if (l =? end_)%Z then removelast i8values else i8values
             | None => i8values
             end).

Record DataFrame := { col_date : list Z; col_temperature_2m : list float }.

(** [pd.DataFrame(data={"date": ..., "temperature_2m": ...})] *)
Definition DataFrame_new (date : list Z) (temperature_2m : list float)
  : result DataFrame :=
  if (length date =? length temperature_2m)%nat then
    Return {| col_date := date; col_temperature_2m := temperature_2m |}
  else Raise (PyException "ValueError" "All arrays must be of the same length").

Definition record (date : Z) (temperature_2m : float) : pyval :=
  PDict (<["date" := PTimestamp date]>
           (<["temperature_2m" := PFloat temperature_2m]> ∅)).

(** [df.to_dict(orient="records")] *)
Definition to_dict_records (df : DataFrame) : list pyval :=
  zip_with record (col_date df) (col_temperature_2m df).

Section Tools.
Variable py : Builtins.
Variable B : Backends.

Definition get_local_time_info (latitude longitude : float)
  : result (gmap string pyval) :=
  try_except
    (timezone_str ← timezone_at B latitude longitude;
     match timezone_str with
     | None | Some EmptyString =>
         mret (error_dict "Could not determine timezone for the coordinates.")
     | Some timezone_str =>
         tz ← pytz_timezone B timezone_str;
         local_time ← now_isoformat B tz;
         mret (<["status" := PStr "success"]>
                 (<["timezone" := PStr timezone_str]>
                    (<["local_time" := PStr local_time]> ∅)))
     end)
    (fun e =>
       mret (error_dict ("Failed to determine timezone or time: " +:+ str e))).

(** The query that [get_coordinates] sends to the geocoder. *)
Definition geocoder_query (city country : string) : string :=
  let city_normalized := str_title py (str_strip py city) in
  let country_normalized := str_title py (str_strip py country) in
  if truthy country_normalized
  then city_normalized +:+ ", " +:+ country_normalized
  else city_normalized.

Definition get_coordinates (city country : string)
  : result (gmap string pyval) :=
  let query := geocoder_query city country in
  try_except
    (location ← geocode B query;
     match location with
     | Some location =>
         mret (<["status" := PStr "success"]>
                 (<["coordinates" :=
                      PTuple [PFloat (latitude location);
                              PFloat (longitude location)]]> ∅))
     | None =>
         mret (error_dict ("Could not find coordinates for '" +:+ query +:+ "'."))
     end)
    (fun e => mret (error_dict ("An error occurred: " +:+ str e))).

Definition get_weather_forecast (latitude longitude : float) (timezone : string)
  : result (gmap string pyval) :=
  try_except
    (let params := {| p_latitude := latitude; p_longitude := longitude;
                      p_hourly := "temperature_2m"; p_timezone := timezone |} in
     responses ← weather_api B FORECAST_API_URL params;
     response ← match responses with
                | response :: _ => mret response
                | [] => Raise (PyException "IndexError" "list index out of range")
                end;
     hourly ← match Hourly response with
              | Some hourly => mret hourly
              | None => Raise (NoneType_has_no "Variables")
              end;
     hourly_temperature_2m ←
       match hourly_Variables hourly with
       | v :: _ => mret (ValuesAsNumpy v)
       | [] => Raise (NoneType_has_no "ValuesAsNumpy")
       end;
     date ← date_range_left (hourly_Time hourly) (hourly_TimeEnd hourly)
                            (hourly_Interval hourly);
     hourly_dataframe ← DataFrame_new date hourly_temperature_2m;
     mret (<["status" := PStr "success"]>
             (<["coordinates" := PTuple [PFloat latitude; PFloat longitude]]>
                (<["report" := PList (to_dict_records hourly_dataframe)]> ∅))))
    (fun e =>
       mret (error_dict ("Failed to retrieve weather data: " +:+ str e))).

Definition as_dict (r : result (gmap string pyval)) : result pyval :=
  d ← r; mret (PDict d).

Definition bad_arguments (f : string) : exn :=
  PyException "TypeError" (f +:+ "() got unexpected arguments").

Definition get_coordinates_tool : Tool := {|
  tool_name := "get_coordinates";
  tool_call := fun args =>
    match args with
    | [PStr city] => as_dict (get_coordinates city "")
    | [PStr city; PStr country] => as_dict (get_coordinates city country)
    | _ => Raise (bad_arguments "get_coordinates")
    end
|}.

Definition get_weather_forecast_tool : Tool := {|
  tool_name := "get_weather_forecast";
  tool_call := fun args =>
    match args with
    | [PFloat latitude; PFloat longitude; PStr timezone] =>
        as_dict (get_weather_forecast latitude longitude timezone)
    | _ => Raise (bad_arguments "get_weather_forecast")
    end
|}.

Definition get_local_time_info_tool : Tool := {|
  tool_name := "get_local_time_info";
  tool_call := fun args =>
    match args with
    | [PFloat latitude; PFloat longitude] =>
        as_dict (get_local_time_info latitude longitude)
    | _ => Raise (bad_arguments "get_local_time_info")
    end
|}.

Definition root_agent (INSTRUCTION : string) : LlmAgent := {|
  name := "weather_agent_v1";
  model := MODEL_GEMINI_2_0_FLASH;
  description := "Provides weather information for any city.";
  instruction := INSTRUCTION;
  tools := [get_coordinates_tool; get_weather_forecast_tool;
            get_local_time_info_tool]
|}.

End Tools.

End WeatherAgent.

(* ===================================================================== *)
(** * src/api/main.py *)
(* ===================================================================== *)

Module Api.

(** [api.config]: the constants that [main.py] imports.  [GOOGLE_API_KEY] is
    [None] when the variable is not in the environment. *)
Record Config := {
  DEFAULT_APP_NAME : string;
  DEFAULT_MODEL : string;
  DEFAULT_SESSION_ID : string;
  DEFAULT_USER_ID : string;
  GOOGLE_API_KEY : option string
}.

(** What the module does to its collaborators, in order. *)
Inductive Effect :=
| genai_configure (api_key : string)
| new_LlmAgent (a : LlmAgent)
| new_InMemorySessionService
| new_Runner (r : Runner)
| call_get_session (app_name user_id session_id : string)
| call_create_session (app_name user_id : string)
| call_runner_run (user_id session_id : string) (new_message : Content).

(** The module's globals, the state of the session service they point to, and
    the effects so far. *)
Record World (S : Type) := {
  agent : option LlmAgent;
  runner : option Runner;
  session_service : option S;
  trace : list Effect
}.
Arguments agent {S} w.
Arguments runner {S} w.
Arguments session_service {S} w.
Arguments trace {S} w.

(** The module as loaded: [agent = None], [runner = None],
    [session_service = None]. *)
Definition module_loaded {S} : World S :=
  {| agent := None; runner := None; session_service := None; trace := [] |}.

(** Code that reads and writes the world and may raise. *)
Definition M (S A : Type) : Type := World S -> result A * World S.

Definition ret_in {S A} (a : A) : M S A := fun w => (Return a, w).

Definition bind_in {S A B} (m : M S A) (k : A -> M S B) : M S B :=
  fun w =>
    match m w with
    | (Return a, w') => k a w'
    | (Raise e, w') => (Raise e, w')
    end.

(** A pure computation that may raise, run in the world. *)
Definition lift {S A} (r : result A) : M S A := fun w => (r, w).

Notation "x <~ m ; k" := (bind_in m (fun x => k))
  (at level 20, m at level 100, k at level 200, only parsing).
Notation "' pat <~ m ; k" := (bind_in m (fun x => match x with pat => k end))
  (at level 20, pat pattern, m at level 100, k at level 200, only parsing).

Definition raise {S A} (e : exn) : M S A := fun w => (Raise e, w).

(** [try: body / except Exception as e: handler e]; what [body] did to the
    world before it raised stays done. *)
Definition try_except_in {S A} (body : M S A) (handler : exn -> M S A) : M S A :=
  fun w =>
    match body w with
    | (Return a, w') => (Return a, w')
    | (Raise e, w') => handler e w'
    end.

(** A call of a method of the object that the global [session_service] (and
    the runner, which was built over the same object) points to. *)
Definition on_service {S A} (method : string) (ef : Effect)
    (op : S -> result A * S) : M S A :=
  fun w =>
    match session_service w with
    | None => (Raise (NoneType_has_no method), w)
    | Some ss =>
        let '(r, ss') := op ss in
        (r, {| agent := agent w; runner := runner w;
               session_service := Some ss'; trace := trace w ++ [ef] |})
    end.

Definition get_weather (city : string) : string :=
  "The weather in " +:+ city +:+ " is sunny.".

Definition get_weather_tool : Tool := {|
  tool_name := "get_weather";
  tool_call := fun args =>
    match args with
    | [PStr city] => Return (PStr (get_weather city))
    | _ => Raise (PyException "TypeError" "get_weather() got unexpected arguments")
    end
|}.

Section Module_.
Context {S : Type} {F : Framework S}.
Variable cfg : Config.

Definition initialize_agent : M S unit :=
  fun w =>
    match GOOGLE_API_KEY cfg with
    | None | Some EmptyString =>
        (Raise (PyException "ValueError"
           "GOOGLE_API_KEY is not set. Please set it in your .env file or environment variables."),
         w)
    | Some key =>
        let agent_ :=
          {| name := "weather_agent";
             model := DEFAULT_MODEL cfg;
             tools := [get_weather_tool];
             description := "A helpful assistant that can check weather.";
             instruction := "" |} in
        let runner_ := {| r_agent := agent_; r_app_name := DEFAULT_APP_NAME cfg |} in
        (Return tt,
         {| agent := Some agent_;
            session_service := Some new_session_service;
            runner := Some runner_;
            trace := trace w ++ [genai_configure key; new_LlmAgent agent_;
                                 new_InMemorySessionService; new_Runner runner_] |})
    end.

(** Lines 114-128: an existing session, or a new one. *)
Definition resolve_session (user_id session_id : string) : M S string :=
  try_except_in
    (session <~ on_service "get_session"
                 (call_get_session (DEFAULT_APP_NAME cfg) user_id session_id)
                 (get_session (DEFAULT_APP_NAME cfg) user_id session_id);
     match session with
     | Some session => ret_in (s_id session)
     | None => raise (NoneType_has_no "id")
     end)
    (fun e =>
       new_session <~ on_service "create_session"
                       (call_create_session (DEFAULT_APP_NAME cfg) user_id)
                       (create_session (DEFAULT_APP_NAME cfg) user_id);
       ret_in (s_id new_session)).

(** [hasattr(event, 'is_final_response') and event.is_final_response()] *)
Definition flagged_final (event : Event) : bool :=
  match is_final_response event with
  | Some true => true
  | _ => false
  end.

(** [hasattr(event, 'content') and event.content and event.content.parts]:
    the first part, when the test passes. *)
Definition content_parts (event : Event) : option Part :=
  match content event with
  | Some c => head (parts c)
  | None => None
  end.

(** Lines 139-148: the loop over the events.  The one assignment to
    [response_text] is followed by [break]; the text of a part may be
    [None]. *)
Fixpoint process_events (response_text : option string) (events : EventStream)
  : result (option string) :=
  match events with
  | Exhausted => Return response_text
  | Throws e => Raise e
  | Yield event rest =>
      if flagged_final event then
        match content_parts event with
        | Some p => Return (text p)
        | None => process_events response_text rest
        end
      else process_events response_text rest
  end.

Definition run_query (query user_id session_id : string)
  : M S (option string * string) :=
  fun w =>
    match runner w, session_service w with
    | Some runner_, Some _ =>
        try_except_in
          (actual_session_id <~ resolve_session user_id session_id;
           let content_ :=
             {| role := "user"; parts := [{| text := Some query |}] |} in
           events <~ on_service "run"
                      (call_runner_run user_id actual_session_id content_)
                      (runner_run runner_ user_id actual_session_id content_);
           response_text <~
             lift (process_events (Some "No response received.") events);
           ret_in (response_text, actual_session_id))
          (fun e =>
             raise (HTTPException HTTP_500_INTERNAL_SERVER_ERROR
                      ("Error processing query: " +:+ str e)))
          w
    | _, _ =>
        (Raise (HTTPException HTTP_500_INTERNAL_SERVER_ERROR
                  "Agent not properly initialized"), w)
    end.

(** ** The application *)

Inductive ServerState :=
| Serving
| StartupFailed (e : exn).

(** [lifespan] up to its [yield]: the exception of [initialize_agent] is
    raised again, and the server does not come up. *)
Definition lifespan (w : World S) : ServerState * World S :=
  match initialize_agent w with
  | (Return _, w') => (Serving, w')
  | (Raise e, w') => (StartupFailed e, w')
  end.

Record QueryRequest := { query : string; user_id : string; session_id : string }.

Record QueryResponse := {
  response : string;
  response_user_id : string;
  response_session_id : string
}.

(** The JSON body of [POST /query], each field a string or missing. *)
Record Body := {
  body_query : option string;
  body_user_id : option string;
  body_session_id : option string
}.

(** Validation of the body against [QueryRequest]: [query] is required
    ([Field(...)]), the other two have defaults. *)
Definition QueryRequest_validate (b : Body) : option QueryRequest :=
  match body_query b with
  | None => None
  | Some q =>
      Some {| query := q;
              user_id := default (DEFAULT_USER_ID cfg) (body_user_id b);
              session_id := default (DEFAULT_SESSION_ID cfg) (body_session_id b) |}
  end.

(** [QueryResponse(response=, user_id=, session_id=)]: [response] must be a
    [str]. *)
Definition QueryResponse_new (response_ : option string) (user_id_ session_id_ : string)
  : result QueryResponse :=
  match response_ with
  | Some r =>
      Return {| response := r; response_user_id := user_id_;
                response_session_id := session_id_ |}
  | None =>
      Raise (PyException "ValidationError"
               "1 validation error for QueryResponse: response: Input should be a valid string")
  end.

Definition process_query (request : QueryRequest) : M S QueryResponse :=
  fun w =>
    match
      ('(response_, actual_session_id) <~
          run_query (query request) (user_id request) (session_id request);
       lift (QueryResponse_new response_ (user_id request) actual_session_id))
        w
    with
    | (Return r, w') => (Return r, w')
    | (Raise (HTTPException c d), w') => (Raise (HTTPException c d), w')
    | (Raise e, w') =>
        (Raise (HTTPException HTTP_500_INTERNAL_SERVER_ERROR
                  ("Unexpected error: " +:+ str e)), w')
    end.

(** What the client of [POST /query] gets. *)
Inductive HttpResponse :=
| Http200 (r : QueryResponse)
| HttpValidationError (missing_field : string)
| HttpError (status_code : nat) (detail : string)
| RawException (e : exn).

Definition http_status (r : HttpResponse) : nat :=
  match r with
  | Http200 _ => 200
  | HttpValidationError _ => 422
  | HttpError c _ => c
  | RawException _ => 500
  end.

(** FastAPI's route for [POST /query]: validate the body, call the handler,
    turn an [HTTPException] into its response. *)
Definition post_query (b : Body) (w : World S) : HttpResponse * World S :=
  match QueryRequest_validate b with
  | None => (HttpValidationError "query", w)
  | Some request =>
      match process_query request w with
      | (Return r, w') => (Http200 r, w')
      | (Raise (HTTPException c d), w') => (HttpError c d, w')
      | (Raise e, w') => (RawException e, w')
      end
  end.

(** A server that did not start answers nothing. *)
Definition serve (st : ServerState) (b : Body) (w : World S)
  : option (HttpResponse * World S) :=
  match st with
  | Serving => Some (post_query b w)
  | StartupFailed _ => None
  end.

End Module_.

End Api.

Export Api.

(* ===================================================================== *)
(** * Stubbed collaborators *)
(* ===================================================================== *)

Module Fixtures.

Definition stub_cfg : Config := {|
  DEFAULT_APP_NAME := "weather_app";
  DEFAULT_MODEL := "gemini-2.0-flash";
  DEFAULT_SESSION_ID := "default_session";
  DEFAULT_USER_ID := "default_user";
  GOOGLE_API_KEY := Some "secret"
|}.

Definition no_key_cfg : Config := {|
  DEFAULT_APP_NAME := "weather_app";
  DEFAULT_MODEL := "gemini-2.0-flash";
  DEFAULT_SESSION_ID := "default_session";
  DEFAULT_USER_ID := "default_user";
  GOOGLE_API_KEY := None
|}.

Definition stub_uuid4 (n : nat) : string := "uuid-" +:+ pretty n.

Definition text_event (final : bool) (t : string) : Event :=
  {| is_final_response := Some final;
     content := Some {| role := "model"; parts := [{| text := Some t |}] |} |}.

(** A final event without content, as the framework emits for a state
    update. *)
Definition bare_event (final : bool) : Event :=
  {| is_final_response := Some final; content := None |}.

(** A model that answers every message in one final event. *)
Definition stub_llm (a : LlmAgent) (user_id session_id : string) (m : Content)
  : EventStream :=
  Yield (text_event false "thinking") (Yield (text_event true "It is sunny.") Exhausted).

(** A model that never flags an event as final. *)
Definition silent_llm (a : LlmAgent) (user_id session_id : string) (m : Content)
  : EventStream :=
  Yield (text_event false "thinking") (Yield (bare_event false) Exhausted).

(** A runtime that breaks while it streams. *)
Definition broken_llm (a : LlmAgent) (user_id session_id : string) (m : Content)
  : EventStream :=
  Yield (text_event false "thinking") (Throws (PyException "RuntimeError" "model unavailable")).

(** A model whose first final event carries a part without text (a function
    response, say) and is followed by a final event with a text. *)
Definition textless_llm (a : LlmAgent) (user_id session_id : string) (m : Content)
  : EventStream :=
  Yield {| is_final_response := Some true;
           content := Some {| role := "model"; parts := [{| text := None |}] |} |}
    (Yield (text_event true "It is sunny.") Exhausted).

(** A model whose only final event has no content. *)
Definition bare_final_llm (a : LlmAgent) (user_id session_id : string) (m : Content)
  : EventStream :=
  Yield (text_event false "thinking") (Yield (bare_event true) Exhausted).

Definition stub_framework : Framework InMemorySessionService :=
  InMemory stub_uuid4 stub_llm.

Definition textless_framework : Framework InMemorySessionService :=
  InMemory stub_uuid4 textless_llm.

Definition bare_final_framework : Framework InMemorySessionService :=
  InMemory stub_uuid4 bare_final_llm.

Definition silent_framework : Framework InMemorySessionService :=
  InMemory stub_uuid4 silent_llm.

Definition broken_framework : Framework InMemorySessionService :=
  InMemory stub_uuid4 broken_llm.

(** What [initialize_agent] builds under [stub_cfg]. *)
Definition stub_agent : LlmAgent := {|
  name := "weather_agent";
  model := "gemini-2.0-flash";
  tools := [get_weather_tool];
  description := "A helpful assistant that can check weather.";
  instruction := ""
|}.

Definition stub_runner : Runner :=
  {| r_agent := stub_agent; r_app_name := "weather_app" |}.

Definition empty_service : InMemorySessionService :=
  {| sessions := ∅; drawn := 0 |}.

(** The world once [lifespan] has started the application. *)
Definition started : World InMemorySessionService := {|
  agent := Some stub_agent;
  runner := Some stub_runner;
  session_service := Some empty_service;
  trace := [genai_configure "secret"; new_LlmAgent stub_agent;
            new_InMemorySessionService; new_Runner stub_runner]
|}.

Definition body (q : string) : Body :=
  {| body_query := Some q; body_user_id := None; body_session_id := None |}.

(** A session service whose lookup raises instead of returning [None]. *)
Definition lookup_raises : Framework InMemorySessionService := {|
  new_session_service := {| sessions := ∅; drawn := 0 |};
  get_session := fun _ _ session_id ss =>
    (Raise (PyException "KeyError" session_id), ss);
  create_session := in_memory_create_session stub_uuid4;
  runner_run := in_memory_runner_run stub_llm
|}.

(** A session service that is down. *)
Definition service_down : Framework InMemorySessionService := {|
  new_session_service := {| sessions := ∅; drawn := 0 |};
  get_session := fun _ _ _ ss =>
    (Raise (PyException "ConnectionError" "session store unreachable"), ss);
  create_session := fun _ _ ss =>
    (Raise (PyException "ConnectionError" "session store unreachable"), ss);
  runner_run := in_memory_runner_run stub_llm
|}.

(** Built-ins for 7-bit text. *)
Definition ascii_builtins : Builtins :=
  {| str_strip := ascii_strip; str_title := ascii_title |}.

(** A provider that answers with an empty hourly series. *)
Definition empty_series : WeatherAgent.WeatherApiResponse :=
  {| WeatherAgent.Hourly := Some
       {| WeatherAgent.hourly_Time := 1700000000;
          WeatherAgent.hourly_TimeEnd := 1700000000;
          WeatherAgent.hourly_Interval := 3600;
          WeatherAgent.hourly_Variables := [{| WeatherAgent.ValuesAsNumpy := [] |}] |} |}.

Definition london : WeatherAgent.Location :=
  {| WeatherAgent.latitude := 51.5%float; WeatherAgent.longitude := (-0.125)%float |}.

(** Three hourly points from 1700000000. *)
Definition three_hours : WeatherAgent.WeatherApiResponse :=
  {| WeatherAgent.Hourly := Some
       {| WeatherAgent.hourly_Time := 1700000000;
          WeatherAgent.hourly_TimeEnd := 1700010800;
          WeatherAgent.hourly_Interval := 3600;
          WeatherAgent.hourly_Variables :=
            [{| WeatherAgent.ValuesAsNumpy := [11.5%float; 12%float; 12.25%float] |}] |} |}.

Definition stub_backends : WeatherAgent.Backends := {|
  WeatherAgent.timezone_at := fun _ _ => Return (Some "Europe/London");
  WeatherAgent.pytz_timezone := fun z => Return {| WeatherAgent.zone := z |};
  WeatherAgent.now_isoformat := fun _ => Return "2025-07-08T14:52:00+01:00";
  WeatherAgent.geocode := fun _ => Return (Some london);
  WeatherAgent.weather_api := fun _ _ => Return [three_hours]
|}.

Definition empty_series_backends : WeatherAgent.Backends := {|
  WeatherAgent.timezone_at := WeatherAgent.timezone_at stub_backends;
  WeatherAgent.pytz_timezone := WeatherAgent.pytz_timezone stub_backends;
  WeatherAgent.now_isoformat := WeatherAgent.now_isoformat stub_backends;
  WeatherAgent.geocode := WeatherAgent.geocode stub_backends;
  WeatherAgent.weather_api := fun _ _ => Return [empty_series]
|}.

End Fixtures.

Import Fixtures.

(* ===================================================================== *)
(** * Vocabulary of the statements *)
(* ===================================================================== *)

(** The shape every tool returns: status "success" with the payload keys, or
    status "error" with an error_message. *)
Definition tool_result (payload : list string) (d : gmap string pyval) : Prop :=
  (d !! "status" = Some (PStr "success")
   /\ Forall (fun k => is_Some (d !! k)) payload)
  \/ (d !! "status" = Some (PStr "error")
      /\ exists m, d !! "error_message" = Some (PStr m)).

(** The time stamps T, T+I, ..., T+(N-1)*I. *)
Definition hourly_stamps (T I : Z) (N : nat) : list Z :=
  map (fun k => (T + Z.of_nat k * I)%Z) (seq 0 N).

Section SequenceVocabulary.
Context {S : Type} {F : Framework S}.
Variable cfg : Config.

(** The message that [run_query] builds from the query text. *)
Definition user_message (query : string) : Content :=
  {| role := "user"; parts := [{| text := Some query |}] |}.

(** The lookup of lines 116-119 does not give a session id: [get_session]
    raises, or returns [None] (and [session.id] raises). *)
Definition lookup_fails (user_id session_id : string) (ss ss1 : S) : Prop :=
  (exists e, get_session (DEFAULT_APP_NAME cfg) user_id session_id ss = (Raise e, ss1))
  \/ get_session (DEFAULT_APP_NAME cfg) user_id session_id ss = (Return None, ss1).

(** [NoSession -> SessionResolved]: the session found, or the one created
    after the lookup failed. *)
Inductive resolved (user_id session_id : string) (ss : S) : string -> S -> Prop :=
| resolved_existing session ss1 :
    get_session (DEFAULT_APP_NAME cfg) user_id session_id ss
    = (Return (Some session), ss1) ->
    resolved user_id session_id ss (s_id session) ss1
| resolved_created session ss1 ss2 :
    lookup_fails user_id session_id ss ss1 ->
    create_session (DEFAULT_APP_NAME cfg) user_id ss1 = (Return session, ss2) ->
    resolved user_id session_id ss (s_id session) ss2.

(** An exception [e] leaves the sequence of [run_query]: from the creation of
    the session, from [runner.run], or from the event stream.  (An exception of
    the lookup alone is not one of them: the creation follows it.) *)
Inductive sequence_raises (r : Runner) (query user_id session_id : string)
    (ss : S) (e : exn) : Prop :=
| raises_in_create ss1 ss2 :
    lookup_fails user_id session_id ss ss1 ->
    create_session (DEFAULT_APP_NAME cfg) user_id ss1 = (Raise e, ss2) ->
    sequence_raises r query user_id session_id ss e
| raises_in_run actual_session_id ss1 ss2 :
    resolved user_id session_id ss actual_session_id ss1 ->
    runner_run r user_id actual_session_id (user_message query) ss1 = (Raise e, ss2) ->
    sequence_raises r query user_id session_id ss e
| raises_in_draining actual_session_id ss1 ss2 events :
    resolved user_id session_id ss actual_session_id ss1 ->
    runner_run r user_id actual_session_id (user_message query) ss1
    = (Return events, ss2) ->
    process_events (Some "No response received.") events = Raise e ->
    sequence_raises r query user_id session_id ss e.

End SequenceVocabulary.

(** The world after calls of the session service. *)
Definition after {S} (w : World S) (ss : S) (tr : list Effect) : World S :=
  {| agent := agent w; runner := runner w;
     session_service := Some ss; trace := trace w ++ tr |}.

(** The stream ends, without raising, and no event of it was flagged as a
    final response. *)
Fixpoint exhausted_without_final (events : EventStream) : bool :=
  match events with
  | Exhausted => true
  | Throws _ => false
  | Yield event rest => negb (flagged_final event) && exhausted_without_final rest
  end.

(** The loop over the stream comes to an end without an exception: an event
    gives the answer, or the stream is exhausted. *)
Fixpoint drains (events : EventStream) : bool :=
  match events with
  | Exhausted => true
  | Throws _ => false
  | Yield event rest =>
      match flagged_final event, content_parts event with
      | true, Some _ => true
      | _, _ => drains rest
      end
  end.

Definition constructions (p : Effect -> bool) (tr : list Effect) : nat :=
  length (filter (fun ef => p ef = true) tr).

Definition is_new_LlmAgent (ef : Effect) : bool :=
  match ef with new_LlmAgent _ => true | _ => false end.

Definition is_new_InMemorySessionService (ef : Effect) : bool :=
  match ef with new_InMemorySessionService => true | _ => false end.

Definition is_new_Runner (ef : Effect) : bool :=
  match ef with new_Runner _ => true | _ => false end.

Definition is_call_runner_run (ef : Effect) : bool :=
  match ef with call_runner_run _ _ _ => true | _ => false end.

Definition is_raw (r : HttpResponse) : bool :=
  match r with RawException _ => true | _ => false end.

Definition is_call_get_session (ef : Effect) : bool :=
  match ef with call_get_session _ _ _ => true | _ => false end.

Definition is_call_create_session (ef : Effect) : bool :=
  match ef with call_create_session _ _ => true | _ => false end.

(** The effects of [initialize_agent]. *)
Definition is_startup_effect (ef : Effect) : bool :=
  match ef with
  | genai_configure _ | new_LlmAgent _ | new_InMemorySessionService
  | new_Runner _ => true
  | _ => false
  end.

(** The stream ends, without raising, and none of its events was both flagged
    as a final response and carrying content parts. *)
Fixpoint exhausted_without_answer (events : EventStream) : bool :=
  match events with
  | Exhausted => true
  | Throws _ => false
  | Yield event rest =>
      match flagged_final event, content_parts event with
      | true, Some _ => false
      | _, _ => exhausted_without_answer rest
      end
  end.

(** The text of the first event that is flagged as a final response and
    whose first part has a text that is not empty. *)
Fixpoint first_final_text (events : EventStream) : option string :=
  match events with
  | Yield event rest =>
      match flagged_final event, content_parts event with
      | true, Some {| text := Some t |} =>
          if truthy t then Some t else first_final_text rest
      | _, _ => first_final_text rest
      end
  | _ => None
  end.

(** The number of points of [start, end) at a step of [freq]: the quotient
    rounded up. *)
Definition points_between (start end_ freq : Z) : nat :=
  Z.to_nat (- ((start - end_) / freq)).

(* ===================================================================== *)
(** * Strings: trimming and title-casing *)
(* ===================================================================== *)

Section Strings.

Ltac by_cases_on c :=
  destruct c as [[] [] [] [] [] [] [] []]; reflexivity.

Lemma isspace_to_lower c : ascii_isspace (ascii_to_lower c) = ascii_isspace c.
Proof. by_cases_on c. Qed.

Lemma is_cased_to_lower c : ascii_is_cased (ascii_to_lower c) = ascii_is_cased c.
Proof. by_cases_on c. Qed.

Lemma to_lower_idem c : ascii_to_lower (ascii_to_lower c) = ascii_to_lower c.
Proof. by_cases_on c. Qed.










Lemma lstrip_all_space l : ascii_all_space l = true -> ascii_lstrip l = EmptyString.
Proof.
  induction l as [|c l IH]; simpl; [reflexivity|].
  intros [Hc Hl]%andb_prop. rewrite Hc. auto.
Qed.



(** ** 7-bit text and the built-ins *)

Lemma ascii_to_lower_below c :
  (nat_of_ascii (ascii_to_lower c) <? 128)%nat = (nat_of_ascii c <? 128)%nat.
Proof. by_cases_on c. Qed.

Lemma ascii_to_upper_below c :
  (nat_of_ascii (ascii_to_upper c) <? 128)%nat = (nat_of_ascii c <? 128)%nat.
Proof. by_cases_on c. Qed.





Lemma is_ascii_lstrip s : is_ascii s = true -> is_ascii (ascii_lstrip s) = true.
Proof.
  induction s as [|c s IH]; simpl; [reflexivity|].
  intros H. destruct (ascii_isspace c); [|exact H].
  apply andb_prop in H as [_ H]. auto.
Qed.

Lemma is_ascii_rstrip s : is_ascii s = true -> is_ascii (ascii_rstrip s) = true.
Proof.
  induction s as [|c s IH]; simpl; [reflexivity|].
  intros [Hc Hs]%andb_prop. specialize (IH Hs).
  destruct (ascii_rstrip s) as [|c' r]; simpl in *.
  - destruct (ascii_isspace c); simpl; [reflexivity | rewrite Hc; reflexivity].
  - rewrite Hc. exact IH.
Qed.

Lemma is_ascii_strip s : is_ascii s = true -> is_ascii (ascii_strip s) = true.
Proof. intros H. apply is_ascii_lstrip, is_ascii_rstrip, H. Qed.

Lemma is_ascii_title_from b s : is_ascii (ascii_title_from b s) = is_ascii s.
Proof.
  revert b; induction s as [|c s IH]; intros b; simpl; [reflexivity|].
  rewrite IH. destruct b;
    [rewrite ascii_to_lower_below | rewrite ascii_to_upper_below]; reflexivity.
Qed.

(** On 7-bit text, what the code computes with the built-ins is what the
    reference computes. *)
Lemma normalize_conformant (py : Builtins) s :
  ascii_conformant py -> is_ascii s = true ->
  str_title py (str_strip py s) = ascii_title (ascii_strip s).
Proof.
  intros Hpy Hs. rewrite (proj1 (Hpy s Hs)).
  apply (Hpy (ascii_strip s)), is_ascii_strip, Hs.
Qed.

End Strings.

(* ===================================================================== *)
(** * The three resolvers *)
(* ===================================================================== *)

Section Resolvers.
Import WeatherAgent.

Ltac run_result :=
  unfold mbind, mret, result_bind, result_ret, bind, try_except in *.

Lemma tool_result_error payload m : tool_result payload (error_dict m).
Proof. right. split; [reflexivity | exists m; reflexivity]. Qed.

Lemma get_local_time_info_total B lat lon :
  exists d, get_local_time_info B lat lon = Return d
            /\ tool_result ["timezone"; "local_time"] d.
Proof.
  unfold get_local_time_info. run_result.
  destruct (timezone_at B lat lon) as [[[|c z]|]|e];
    try (eexists; split; [reflexivity | apply tool_result_error]).
  destruct (pytz_timezone B (String c z)) as [tz|e];
    try (eexists; split; [reflexivity | apply tool_result_error]).
  destruct (now_isoformat B tz) as [t|e];
    try (eexists; split; [reflexivity | apply tool_result_error]).
  eexists; split; [reflexivity|].
  left. split; [reflexivity|]. repeat constructor; eexists; reflexivity.
Qed.

Lemma get_coordinates_total py B city country :
  exists d, get_coordinates py B city country = Return d
            /\ tool_result ["coordinates"] d.
Proof.
  unfold get_coordinates. run_result.
  destruct (geocode B (geocoder_query py city country)) as [[loc|]|e];
    try (eexists; split; [reflexivity | apply tool_result_error]).
  eexists; split; [reflexivity|].
  left. split; [reflexivity|]. repeat constructor; eexists; reflexivity.
Qed.

Lemma get_weather_forecast_total B lat lon tz :
  exists d, get_weather_forecast B lat lon tz = Return d
            /\ tool_result ["coordinates"; "report"] d.
Proof.
  unfold get_weather_forecast. run_result.
  destruct (weather_api B _ _) as [[|response rest]|e];
    try (eexists; split; [reflexivity | apply tool_result_error]).
  destruct (Hourly response) as [hourly|];
    try (eexists; split; [reflexivity | apply tool_result_error]).
  destruct (hourly_Variables hourly) as [|v vs];
    try (eexists; split; [reflexivity | apply tool_result_error]).
  destruct (date_range_left _ _ _) as [date|e];
    try (eexists; split; [reflexivity | apply tool_result_error]).
  destruct (DataFrame_new date (ValuesAsNumpy v)) as [df|e];
    try (eexists; split; [reflexivity | apply tool_result_error]).
  eexists; split; [reflexivity|].
  left. split; [reflexivity|]. repeat constructor; eexists; reflexivity.
Qed.

(** C6: each of the three resolvers returns, whatever its backend does (a
    raised exception included), a dict whose status is "success" with the
    payload keys present, or "error" with an error_message; none of them lets
    an exception through. *)
Theorem resolvers_never_raise (py : Builtins) (B : Backends) :
  (forall lat lon,
     exists d, get_local_time_info B lat lon = Return d
               /\ tool_result ["timezone"; "local_time"] d) /\
  (forall city country,
     exists d, get_coordinates py B city country = Return d
               /\ tool_result ["coordinates"] d) /\
  (forall lat lon tz,
     exists d, get_weather_forecast B lat lon tz = Return d
               /\ tool_result ["coordinates"; "report"] d).
Proof.
  split; [|split]; intros.
  - apply get_local_time_info_total.
  - apply get_coordinates_total.
  - apply get_weather_forecast_total.
Qed.

(** ** The hourly range *)

Lemma np_arange_length_hourly (T I : Z) (N : nat) :
  (0 < I)%Z ->
  np_arange T (T + Z.of_nat N * I + I / 2 + 1) I = hourly_stamps T I (S N).
Proof.
  intros HI. unfold np_arange, hourly_stamps.
  assert (Hq : ((T - (T + Z.of_nat N * I + I / 2 + 1)) / I = - Z.of_nat (S N))%Z).
  { symmetry. apply (Z.div_unique_pos _ _ _ (I - I / 2 - 1)%Z).
    - pose proof (Z.div_mod I 2 ltac:(lia)).
      pose proof (Z.mod_pos_bound I 2 ltac:(lia)). lia.
    - lia. }
  rewrite Hq, Z.opp_involutive, Nat2Z.id. reflexivity.
Qed.

Lemma date_range_left_hourly (T I : Z) (N : nat) :
  (0 < I)%Z -> (0 < N)%nat ->
  date_range_left T (T + Z.of_nat N * I) I = Return (hourly_stamps T I N).
Proof.
  intros HI HN. unfold date_range_left, generate_regular_range. run_result.
  destruct (Z.eqb_spec I 0) as [->|_]; [lia|].
  replace ((T + Z.of_nat N * I - T) / I * I)%Z with (Z.of_nat N * I)%Z
    by (rewrite Z.add_simpl_l, Z.div_mul; lia).
  rewrite np_arange_length_hourly by assumption.
  destruct (Z.eqb_spec T (T + Z.of_nat N * I)) as [E|_]; [nia|].
  unfold hourly_stamps. rewrite seq_S, map_app. simpl.
  rewrite last_snoc, Z.eqb_refl, removelast_last. reflexivity.
Qed.

(** C7, as the code has it: when the provider's hourly series starts at [T],
    has the interval [I > 0] and carries the [N >= 1] temperatures [temps],
    ending at [T + N*I], the forecast is a success whose report is the [N]
    records (T + k*I, temps[k]), k < N, in order. *)
Theorem get_weather_forecast_hourly_records
    (B : Backends) (lat lon : float) (tz : string)
    (T I : Z) (temps : list float) (others : list VariableWithValues)
    (more : list WeatherApiResponse) :
  (0 < I)%Z ->
  (0 < length temps)%nat ->
  weather_api B FORECAST_API_URL
    {| p_latitude := lat; p_longitude := lon;
       p_hourly := "temperature_2m"; p_timezone := tz |}
  = Return ({| Hourly := Some
                 {| hourly_Time := T;
                    hourly_TimeEnd := T + Z.of_nat (length temps) * I;
                    hourly_Interval := I;
                    hourly_Variables := {| ValuesAsNumpy := temps |} :: others |} |}
            :: more) ->
  exists report,
    get_weather_forecast B lat lon tz
    = Return (<["status" := PStr "success"]>
                (<["coordinates" := PTuple [PFloat lat; PFloat lon]]>
                   (<["report" := PList report]> ∅)))
    /\ report = zip_with record (hourly_stamps T I (length temps)) temps
    /\ length report = length temps
    /\ forall k t, temps !! k = Some t ->
         report !! k = Some (record (T + Z.of_nat k * I) t).
Proof.
  intros HI HN Hapi.
  exists (zip_with record (hourly_stamps T I (length temps)) temps).
  assert (Hlen : length (hourly_stamps T I (length temps)) = length temps).
  { unfold hourly_stamps. rewrite length_map, length_seq. reflexivity. }
  split; [|split; [reflexivity|split]].
  - unfold get_weather_forecast. run_result. rewrite Hapi. simpl.
    rewrite date_range_left_hourly by assumption.
    unfold DataFrame_new. rewrite Hlen, Nat.eqb_refl. reflexivity.
  - rewrite length_zip_with, Hlen. lia.
  - intros k t Hk. rewrite lookup_zip_with, Hk.
    unfold hourly_stamps. rewrite list_lookup_fmap, lookup_seq_lt.
    + reflexivity.
    + apply lookup_lt_Some in Hk. exact Hk.
Qed.

Lemma get_weather_forecast_hourly_records_witness :
  exists report,
    get_weather_forecast stub_backends 51.5%float (-0.125)%float "Europe/London"
    = Return (<["status" := PStr "success"]>
                (<["coordinates" := PTuple [PFloat 51.5%float; PFloat (-0.125)%float]]>
                   (<["report" := PList report]> ∅)))
    /\ report = zip_with record (hourly_stamps 1700000000 3600 3)
                  [11.5%float; 12%float; 12.25%float]
    /\ length report = 3%nat
    /\ forall k t, [11.5%float; 12%float; 12.25%float] !! k = Some t ->
         report !! k = Some (record (1700000000 + Z.of_nat k * 3600) t).
Proof.
  apply (get_weather_forecast_hourly_records stub_backends 51.5%float
           (-0.125)%float "Europe/London" 1700000000 3600
           [11.5%float; 12%float; 12.25%float] [] []).
  - lia.
  - simpl; lia.
  - reflexivity.
Defined.

(** ** The geocoder query *)





End Resolvers.

(* ===================================================================== *)
(** * The query runner *)
(* ===================================================================== *)

Section Runner.
Context {S : Type} {F : Framework S}.
Variable cfg : Config.

Ltac run_world :=
  unfold try_except_in, bind_in, ret_in, raise, lift, on_service in *; simpl in *.

Lemma resolve_session_resolved (w : World S) ss user_id session_id asid ss1 :
  session_service w = Some ss ->
  resolved cfg user_id session_id ss asid ss1 ->
  exists tr, resolve_session cfg user_id session_id w = (Return asid, after w ss1 tr).
Proof.
  intros Hss Hres. unfold resolve_session, after. run_world. rewrite Hss.
  destruct Hres as [session ss1 Hget | session ss1 ss2 [[e Hget]|Hget] Hnew];
    rewrite Hget; simpl; [|rewrite Hnew; simpl..]; rewrite <- ?app_assoc;
    eexists; reflexivity.
Qed.

Lemma resolve_session_raises (w : World S) ss user_id session_id e ss1 ss2 :
  session_service w = Some ss ->
  lookup_fails cfg user_id session_id ss ss1 ->
  create_session (DEFAULT_APP_NAME cfg) user_id ss1 = (Raise e, ss2) ->
  exists tr, resolve_session cfg user_id session_id w = (Raise e, after w ss2 tr).
Proof.
  intros Hss [[e0 Hget]|Hget] Hnew; unfold resolve_session, after; run_world;
    rewrite Hss, Hget; simpl; rewrite Hnew; simpl; rewrite <- ?app_assoc;
    eexists; reflexivity.
Qed.

(** What [run_query] returns once the session is resolved and the runner has
    handed over its stream. *)
Lemma run_query_resolved (w : World S) r ss query user_id session_id
    asid ss1 events ss2 :
  runner w = Some r -> session_service w = Some ss ->
  resolved cfg user_id session_id ss asid ss1 ->
  runner_run r user_id asid (user_message query) ss1 = (Return events, ss2) ->
  fst (run_query cfg query user_id session_id w)
  = match process_events (Some "No response received.") events with
    | Return t => Return (t, asid)
    | Raise e => Raise (HTTPException 500 ("Error processing query: " +:+ str e))
    end.
Proof.
  intros Hr Hss Hres Hrun.
  destruct (resolve_session_resolved w ss user_id session_id asid ss1 Hss Hres)
    as [tr Hrs].
  unfold run_query. rewrite Hr, Hss.
  unfold try_except_in, bind_in at 1. rewrite Hrs.
  unfold bind_in at 1, on_service, after; simpl.
  unfold user_message in Hrun. rewrite Hrun.
  unfold bind_in, lift, ret_in, raise.
  destruct (process_events _ events); reflexivity.
Qed.

Lemma run_query_sequence_raises (w : World S) r ss query user_id session_id e :
  runner w = Some r -> session_service w = Some ss ->
  sequence_raises cfg r query user_id session_id ss e ->
  fst (run_query cfg query user_id session_id w)
  = Raise (HTTPException 500 ("Error processing query: " +:+ str e)).
Proof.
  intros Hr Hss [ss1 ss2 Hlook Hnew | asid ss1 ss2 Hres Hrun
                 | asid ss1 ss2 events Hres Hrun Hdrain].
  - destruct (resolve_session_raises w ss user_id session_id e ss1 ss2 Hss Hlook Hnew)
      as [tr Hrs].
    unfold run_query. rewrite Hr, Hss.
    unfold try_except_in, bind_in at 1. rewrite Hrs. reflexivity.
  - destruct (resolve_session_resolved w ss user_id session_id asid ss1 Hss Hres)
      as [tr Hrs].
    unfold run_query. rewrite Hr, Hss.
    unfold try_except_in, bind_in at 1. rewrite Hrs.
    unfold bind_in at 1, on_service, after; simpl.
    unfold user_message in Hrun. rewrite Hrun. reflexivity.
  - rewrite (run_query_resolved w r ss query user_id session_id asid ss1 events ss2)
      by assumption.
    rewrite Hdrain. reflexivity.
Qed.

Lemma run_query_not_initialized (w : World S) query user_id session_id :
  runner w = None \/ session_service w = None ->
  run_query cfg query user_id session_id w
  = (Raise (HTTPException 500 "Agent not properly initialized"), w).
Proof.
  intros [H|H]; unfold run_query; rewrite H; [|destruct (runner w)]; reflexivity.
Qed.


Lemma process_events_before (pre : list Event) (rest : EventStream) d :
  Forall (fun x => flagged_final x = false \/ content_parts x = None) pre ->
  process_events d (yield_all pre rest) = process_events d rest.
Proof.
  induction 1 as [|x pre Hx _ IH]; simpl; [reflexivity|].
  destruct Hx as [-> | ->]; [|destruct (flagged_final x)]; exact IH.
Qed.

(** A stream that raises before any event has given the answer makes the
    loop raise. *)
Lemma process_events_throws (pre : list Event) (e : exn) d :
  Forall (fun x => flagged_final x = false \/ content_parts x = None) pre ->
  process_events d (yield_all pre (Throws e)) = Raise e.
Proof. intros Hpre. rewrite process_events_before by assumption. reflexivity. Qed.

Lemma process_events_exhausted events d :
  exhausted_without_final events = true -> process_events d events = Return d.
Proof.
  induction events as [|event rest IH|e]; simpl; [reflexivity| |discriminate].
  intros [Hf Hrest]%andb_prop. apply negb_true_iff in Hf. rewrite Hf. auto.
Qed.

Lemma process_events_drains events d :
  drains events = true -> exists t, process_events d events = Return t.
Proof.
  induction events as [|event rest IH|e]; simpl; [eexists; reflexivity| |discriminate].
  destruct (flagged_final event); [destruct (content_parts event)|]; eauto.
Qed.

(** C4, as the code has it: when the stream of the runner holds an event that
    is flagged as a final response and has content with at least one part, the
    answer of [run_query] is the text of the first part of the first such
    event, taken as it is (the code does not look at it: it may be empty or
    [None]); final events without content parts before it are passed over,
    and the events after it ([post]) have no influence. *)
Theorem run_query_first_final_response
    (w : World S) r ss query user_id session_id asid ss1 ss2
    (pre : list Event) (event : Event) (post : EventStream) (p : Part) :
  runner w = Some r -> session_service w = Some ss ->
  resolved cfg user_id session_id ss asid ss1 ->
  runner_run r user_id asid (user_message query) ss1
  = (Return (yield_all pre (Yield event post)), ss2) ->
  Forall (fun x => flagged_final x = false \/ content_parts x = None) pre ->
  flagged_final event = true ->
  content_parts event = Some p ->
  fst (run_query cfg query user_id session_id w) = Return (text p, asid).
Proof.
  intros Hr Hss Hres Hrun Hpre Hfinal Hparts.
  rewrite (run_query_resolved w r ss query user_id session_id asid ss1 _ ss2)
    by eassumption.
  rewrite process_events_before by assumption.
  simpl. rewrite Hfinal, Hparts. reflexivity.
Qed.

(** C5: when the stream of the runner is exhausted and none of its events
    was flagged as a final response, [run_query] returns the answer
    "No response received." with the resolved session id. *)
Theorem run_query_no_final_response
    (w : World S) r ss query user_id session_id asid ss1 ss2
    (events : EventStream) :
  runner w = Some r -> session_service w = Some ss ->
  resolved cfg user_id session_id ss asid ss1 ->
  runner_run r user_id asid (user_message query) ss1 = (Return events, ss2) ->
  exhausted_without_final events = true ->
  fst (run_query cfg query user_id session_id w)
  = Return (Some "No response received.", asid).
Proof.
  intros Hr Hss Hres Hrun Hex.
  rewrite (run_query_resolved w r ss query user_id session_id asid ss1 events ss2)
    by assumption.
  rewrite process_events_exhausted by assumption. reflexivity.
Qed.


Lemma run_query_created (w : World S) r ss query user_id session_id
    ss1 session ss2 events ss3 t :
  runner w = Some r -> session_service w = Some ss ->
  lookup_fails cfg user_id session_id ss ss1 ->
  create_session (DEFAULT_APP_NAME cfg) user_id ss1 = (Return session, ss2) ->
  runner_run r user_id (s_id session) (user_message query) ss2 = (Return events, ss3) ->
  process_events (Some "No response received.") events = Return t ->
  run_query cfg query user_id session_id w
  = (Return (t, s_id session),
     after w ss3 [call_get_session (DEFAULT_APP_NAME cfg) user_id session_id;
                  call_create_session (DEFAULT_APP_NAME cfg) user_id;
                  call_runner_run user_id (s_id session) (user_message query)]).
Proof.
  intros Hr Hss Hlook Hnew Hrun Hdrain. unfold run_query, resolve_session, after.
  rewrite Hr, Hss. run_world. rewrite Hss.
  unfold user_message in Hrun.
  destruct Hlook as [[e Hget]|Hget]; rewrite Hget; simpl; rewrite Hnew; simpl;
    rewrite Hrun; simpl; rewrite Hdrain; simpl; rewrite <- !app_assoc, ?Hr;
    reflexivity.
Qed.

(** With an initialized agent, the first thing [run_query] does is to look
    the session up. *)
Lemma run_query_trace_starts (w : World S) r ss query user_id session_id :
  runner w = Some r -> session_service w = Some ss ->
  exists tr,
    trace (snd (run_query cfg query user_id session_id w))
    = (trace w ++ call_get_session (DEFAULT_APP_NAME cfg) user_id session_id :: tr)%list.
Proof.
  intros Hr Hss. unfold run_query, resolve_session. rewrite Hr, Hss.
  run_world. rewrite Hss.
  destruct (get_session _ _ _ ss) as [[[session|]|e0] ss1]; simpl;
    [ | destruct (create_session _ _ ss1) as [[session|e1] ss2]; simpl..];
    try (eexists; reflexivity);
    try (destruct (runner_run r _ _ _ _) as [[events|e2] ss3]; simpl;
         [destruct (process_events _ events); simpl|]);
    rewrite <- ?app_assoc; eexists; reflexivity.
Qed.

(** ** The HTTP boundary *)

Lemma post_query_never_raw (b : Body) (w : World S) :
  is_raw (fst (post_query cfg b w)) = false.
Proof.
  unfold post_query. destruct (QueryRequest_validate cfg b) as [request|]; [|reflexivity].
  unfold process_query.
  match goal with |- context [bind_in ?m ?k w] => destruct (bind_in m k w) as [[a|[c d|cls m0]] w0] end;
    reflexivity.
Qed.

Lemma post_query_run_query_raises (b : Body) request (w : World S) c d :
  QueryRequest_validate cfg b = Some request ->
  fst (run_query cfg (query request) (user_id request) (session_id request) w)
  = Raise (HTTPException c d) ->
  fst (post_query cfg b w) = HttpError c d.
Proof.
  intros Hv Hrq. unfold post_query. rewrite Hv. unfold process_query, bind_in.
  destruct (run_query cfg (query request) (user_id request) (session_id request) w)
    as [res w0].
  simpl in Hrq. subst res. reflexivity.
Qed.

(** C9, as the code has it: the answer to [POST /query] is never a raw
    exception; without an initialized agent it is the error 500
    "Agent not properly initialized"; and an exception [e] raised by the
    creation of the session, by the call of the runner or by the event stream
    is answered by the error 500 with the detail
    "Error processing query: " followed by [str e]. *)
Theorem post_query_errors_are_500 (b : Body) (request : QueryRequest) (w : World S) :
  QueryRequest_validate cfg b = Some request ->
  is_raw (fst (post_query cfg b w)) = false
  /\ (runner w = None \/ session_service w = None ->
      fst (post_query cfg b w) = HttpError 500 "Agent not properly initialized")
  /\ (forall r ss e,
        runner w = Some r -> session_service w = Some ss ->
        sequence_raises cfg r (query request) (user_id request)
                        (session_id request) ss e ->
        fst (post_query cfg b w)
        = HttpError 500 ("Error processing query: " +:+ str e)).
Proof.
  intros Hv. split; [apply post_query_never_raw|split].
  - intros Hnone. apply (post_query_run_query_raises b request w _ _ Hv).
    rewrite run_query_not_initialized by assumption. reflexivity.
  - intros r ss e Hr Hss Hseq.
    apply (post_query_run_query_raises b request w _ _ Hv).
    apply (run_query_sequence_raises w r ss); assumption.
Qed.

(** C2, as the code has it: a body without [query] is answered 422 and
    nothing is called (the world is as before); a body whose [query] is a
    string, the empty one included, is valid and goes to [process_query]:
    with an initialized agent the session service is looked up for it. *)
Theorem post_query_validation (b : Body) (w : World S) :
  (body_query b = None
   /\ post_query cfg b w = (HttpValidationError "query", w)
   /\ http_status (fst (post_query cfg b w)) = 422)
  \/ (exists q request,
        body_query b = Some q
        /\ QueryRequest_validate cfg b = Some request
        /\ query request = q
        /\ user_id request = default (DEFAULT_USER_ID cfg) (body_user_id b)
        /\ session_id request = default (DEFAULT_SESSION_ID cfg) (body_session_id b)
        /\ (forall r ss,
              runner w = Some r -> session_service w = Some ss ->
              exists tr,
                trace (snd (post_query cfg b w))
                = (trace w ++ call_get_session (DEFAULT_APP_NAME cfg)
                                (user_id request) (session_id request) :: tr)%list)).
Proof.
  destruct (body_query b) as [q|] eqn:Hq.
  - right. exists q. eexists. split; [reflexivity|].
    unfold QueryRequest_validate. rewrite Hq.
    repeat (split; [reflexivity|]).
    intros r ss Hr Hss.
    unfold post_query, QueryRequest_validate. rewrite Hq. simpl.
    destruct (run_query_trace_starts w r ss q
                (default (DEFAULT_USER_ID cfg) (body_user_id b))
                (default (DEFAULT_SESSION_ID cfg) (body_session_id b)) Hr Hss)
      as [tr Htr].
    exists tr. rewrite <- Htr.
    unfold process_query, bind_in, lift. simpl.
    destruct (run_query cfg q _ _ w) as [[[t asid]|e] w1]; simpl.
    + destruct (QueryResponse_new t _ asid) as [resp|[c d|cls m]]; reflexivity.
    + destruct e; reflexivity.
  - left. unfold post_query, QueryRequest_validate. rewrite Hq. auto.
Qed.

End Runner.


(* ===================================================================== *)
(** * Start-up and the agent's tool *)
(* ===================================================================== *)

Section Startup.
Context {S : Type} {F : Framework S}.
Variable cfg : Config.

Lemma initialize_agent_without_key (w : World S) :
  GOOGLE_API_KEY cfg = None \/ GOOGLE_API_KEY cfg = Some EmptyString ->
  initialize_agent cfg w
  = (Raise (PyException "ValueError"
       "GOOGLE_API_KEY is not set. Please set it in your .env file or environment variables."),
     w).
Proof. intros [H|H]; unfold initialize_agent; rewrite H; reflexivity. Qed.

(** C10: without the credential (unset, or empty) [initialize_agent] raises
    at once, nothing is constructed, [lifespan] fails and the server answers
    no request; with the credential, start-up from the freshly loaded module
    succeeds, the three globals are set, and the agent, the session service
    and the runner were each constructed exactly once. *)
Theorem startup_requires_credential :
  (GOOGLE_API_KEY cfg = None \/ GOOGLE_API_KEY cfg = Some EmptyString ->
   forall w : World S,
     (exists e, initialize_agent cfg w = (Raise e, w)
                /\ lifespan cfg w = (StartupFailed e, w))
     /\ forall b w', serve cfg (fst (lifespan cfg w)) b w' = None)
  /\ (forall key, GOOGLE_API_KEY cfg = Some key -> key <> EmptyString ->
      exists w' : World S,
        lifespan cfg module_loaded = (Serving, w')
        /\ is_Some (agent w') /\ is_Some (runner w') /\ is_Some (session_service w')
        /\ constructions is_new_LlmAgent (trace w') = 1
        /\ constructions is_new_InMemorySessionService (trace w') = 1
        /\ constructions is_new_Runner (trace w') = 1).
Proof.
  split.
  - intros Hkey w. unfold lifespan.
    rewrite (initialize_agent_without_key w Hkey). simpl.
    split; [eexists; split; reflexivity | reflexivity].
  - intros key Hkey Hne. unfold lifespan, initialize_agent. rewrite Hkey.
    destruct key as [|c key]; [congruence|].
    eexists. split; [reflexivity|]. simpl.
    repeat split; eexists; reflexivity.
Qed.

(** C3: [get_weather] maps every city to "The weather in {city} is sunny.";
    and the agent that [initialize_agent] builds has this function as its
    only tool: each of its tools answers a city with that sentence, and none
    of them is one of the tools of the resolver pipeline. *)
Theorem api_agent_only_tool_is_get_weather (w w' : World S) :
  initialize_agent cfg w = (Return tt, w') ->
  (forall city, get_weather city = "The weather in " +:+ city +:+ " is sunny.")
  /\ exists a r,
       agent w' = Some a /\ runner w' = Some r /\ r_agent r = a
       /\ tools a = [get_weather_tool]
       /\ (forall t city, t ∈ tools a ->
             tool_call t [PStr city]
             = Return (PStr ("The weather in " +:+ city +:+ " is sunny.")))
       /\ (forall py B INSTRUCTION t t',
             t ∈ tools a -> t' ∈ tools (WeatherAgent.root_agent py B INSTRUCTION) ->
             tool_name t <> tool_name t').
Proof.
  unfold initialize_agent.
  destruct (GOOGLE_API_KEY cfg) as [[|c key]|]; try discriminate.
  intros [= <-]. split; [reflexivity|].
  do 2 eexists. repeat (split; [reflexivity|]). simpl. split.
  - intros t city ->%list_elem_of_singleton. reflexivity.
  - intros py B I t t' ->%list_elem_of_singleton Ht'. simpl.
    repeat (apply elem_of_cons in Ht' as [-> | Ht']; [discriminate|]).
    apply elem_of_nil in Ht'. destruct Ht'.
Qed.

End Startup.

(* ===================================================================== *)
(** * Sessions of the in-memory service *)
(* ===================================================================== *)

Section InMemorySessions.
Variable uuid4 : nat -> string.
Variable llm : LlmAgent -> string -> string -> Content -> EventStream.
Variable cfg : Config.

Local Abbreviation in_memory := (InMemory uuid4 llm).


End InMemorySessions.

(* ===================================================================== *)
(** * Runs on stubbed collaborators *)
(* ===================================================================== *)

Lemma lifespan_started :
  lifespan (F:=stub_framework) stub_cfg module_loaded = (Serving, started).
Proof. reflexivity. Qed.



(** C2 fails as stated: the empty query passes the validation, the runner is
    called with it, and the answer is 200. *)
Lemma post_query_empty_query_accepted :
  let out := post_query (F:=stub_framework) stub_cfg (body "") started in
  QueryRequest_validate stub_cfg (body "")
  = Some {| query := ""; user_id := "default_user"; session_id := "default_session" |}
  /\ http_status (fst out) = 200
  /\ constructions is_call_runner_run (trace started) = 0
  /\ constructions is_call_runner_run (trace (snd out)) = 1
  /\ call_runner_run "default_user" "uuid-0" (user_message "") ∈ trace (snd out).
Proof.
  intros out. split; [reflexivity|].
  assert (Hout : trace (snd out)
                 = (trace started ++ [call_get_session "weather_app" "default_user" "default_session";
                                      call_create_session "weather_app" "default_user";
                                      call_runner_run "default_user" "uuid-0" (user_message "")])%list)
    by (vm_compute; reflexivity).
  split; [vm_compute; reflexivity|]. rewrite Hout.
  split; [reflexivity|split; [reflexivity|]].
  apply elem_of_app; right. repeat constructor.
Qed.

(** C9 fails as stated: the exception that the lookup of the session raises
    is not surfaced; a session is created and the answer is 200. *)
Lemma lookup_exception_is_absorbed :
  fst (get_session (Framework:=lookup_raises) "weather_app" "default_user"
         "default_session" empty_service)
  = Raise (PyException "KeyError" "default_session")
  /\ fst (post_query (F:=lookup_raises) stub_cfg (body "Weather in Berlin?") started)
     = Http200 {| response := "It is sunny.";
                  response_user_id := "default_user";
                  response_session_id := "uuid-0" |}
  /\ http_status
       (fst (post_query (F:=lookup_raises) stub_cfg (body "Weather in Berlin?") started))
     <> 500.
Proof.
  split; [reflexivity|].
  assert (H : fst (post_query (F:=lookup_raises) stub_cfg (body "Weather in Berlin?") started)
              = Http200 {| response := "It is sunny.";
                           response_user_id := "default_user";
                           response_session_id := "uuid-0" |})
    by (vm_compute; reflexivity).
  split; [exact H|]. rewrite H. simpl. lia.
Qed.

Lemma post_query_errors_are_500_witness :
  fst (post_query (F:=service_down) stub_cfg (body "Weather in Berlin?") started)
  = HttpError 500 "Error processing query: session store unreachable"
  /\ fst (post_query (F:=broken_framework) stub_cfg (body "Weather in Berlin?") started)
     = HttpError 500 "Error processing query: model unavailable"
  /\ fst (post_query (F:=stub_framework) stub_cfg (body "Weather in Berlin?") module_loaded)
     = HttpError 500 "Agent not properly initialized".
Proof.
  split; [|split].
  - apply (proj2 (proj2 (post_query_errors_are_500 (F:=service_down) stub_cfg
                           (body "Weather in Berlin?") _ started eq_refl))
             stub_runner empty_service
             (PyException "ConnectionError" "session store unreachable")
             eq_refl eq_refl).
    apply (raises_in_create (F:=service_down) stub_cfg _ _ _ _ _ _
             empty_service empty_service).
    + left. eexists. reflexivity.
    + reflexivity.
  - apply (proj2 (proj2 (post_query_errors_are_500 (F:=broken_framework) stub_cfg
                           (body "Weather in Berlin?") _ started eq_refl))
             stub_runner empty_service
             (PyException "RuntimeError" "model unavailable")
             eq_refl eq_refl).
    eapply (raises_in_draining (F:=broken_framework) stub_cfg _ _ _ _ _ _ "uuid-0").
    + eapply (resolved_created (F:=broken_framework) stub_cfg _ _ _
                {| s_id := "uuid-0"; s_app_name := "weather_app";
                   s_user_id := "default_user" |} empty_service).
      * right. reflexivity.
      * reflexivity.
    + reflexivity.
    + reflexivity.
  - apply (proj1 (proj2 (post_query_errors_are_500 (F:=stub_framework) stub_cfg
                           (body "Weather in Berlin?") _ module_loaded eq_refl))).
    left. reflexivity.
Defined.

Lemma run_query_first_final_response_witness :
  fst (run_query (F:=stub_framework) stub_cfg "Weather in Berlin?" "alice" "chat-1" started)
  = Return (Some "It is sunny.", "uuid-0").
Proof.
  apply (run_query_first_final_response (F:=stub_framework) stub_cfg started
           stub_runner empty_service "Weather in Berlin?" "alice" "chat-1" "uuid-0"
           (snd (in_memory_create_session stub_uuid4 "weather_app" "alice" empty_service))
           (snd (in_memory_create_session stub_uuid4 "weather_app" "alice" empty_service))
           [text_event false "thinking"] (text_event true "It is sunny.") Exhausted
           {| text := Some "It is sunny." |}).
  - reflexivity.
  - reflexivity.
  - apply (resolved_created (F:=stub_framework) stub_cfg "alice" "chat-1" empty_service
             {| s_id := "uuid-0"; s_app_name := "weather_app"; s_user_id := "alice" |}
             empty_service).
    + right. reflexivity.
    + reflexivity.
  - reflexivity.
  - repeat constructor.
  - reflexivity.
  - reflexivity.
Defined.

Lemma run_query_no_final_response_witness :
  fst (run_query (F:=silent_framework) stub_cfg "Weather in Berlin?" "alice" "chat-1" started)
  = Return (Some "No response received.", "uuid-0").
Proof.
  apply (run_query_no_final_response (F:=silent_framework) stub_cfg started
           stub_runner empty_service "Weather in Berlin?" "alice" "chat-1" "uuid-0"
           (snd (in_memory_create_session stub_uuid4 "weather_app" "alice" empty_service))
           (snd (in_memory_create_session stub_uuid4 "weather_app" "alice" empty_service))
           (silent_llm stub_agent "alice" "uuid-0" (user_message "Weather in Berlin?"))).
  - reflexivity.
  - reflexivity.
  - apply (resolved_created (F:=silent_framework) stub_cfg "alice" "chat-1" empty_service
             {| s_id := "uuid-0"; s_app_name := "weather_app"; s_user_id := "alice" |}
             empty_service).
    + right. reflexivity.
    + reflexivity.
  - reflexivity.
  - reflexivity.
Defined.

Lemma startup_requires_credential_witness :
  ((exists e, initialize_agent (F:=stub_framework) no_key_cfg module_loaded
              = (Raise e, module_loaded)
              /\ lifespan (F:=stub_framework) no_key_cfg module_loaded
                 = (StartupFailed e, module_loaded))
   /\ forall b w',
        serve (F:=stub_framework) no_key_cfg
          (fst (lifespan (F:=stub_framework) no_key_cfg module_loaded)) b w' = None)
  /\ exists w' : World InMemorySessionService,
       lifespan (F:=stub_framework) stub_cfg module_loaded = (Serving, w')
       /\ is_Some (agent w') /\ is_Some (runner w') /\ is_Some (session_service w')
       /\ constructions is_new_LlmAgent (trace w') = 1
       /\ constructions is_new_InMemorySessionService (trace w') = 1
       /\ constructions is_new_Runner (trace w') = 1.
Proof.
  split.
  - apply (proj1 (startup_requires_credential (F:=stub_framework) no_key_cfg)).
    left. reflexivity.
  - apply (proj2 (startup_requires_credential (F:=stub_framework) stub_cfg) "secret").
    + reflexivity.
    + discriminate.
Defined.

Lemma api_agent_only_tool_is_get_weather_witness :
  (forall city, get_weather city = "The weather in " +:+ city +:+ " is sunny.")
  /\ exists a r,
       agent started = Some a /\ runner started = Some r /\ r_agent r = a
       /\ tools a = [get_weather_tool]
       /\ (forall t city, t ∈ tools a ->
             tool_call t [PStr city]
             = Return (PStr ("The weather in " +:+ city +:+ " is sunny.")))
       /\ (forall py B INSTRUCTION t t',
             t ∈ tools a -> t' ∈ tools (WeatherAgent.root_agent py B INSTRUCTION) ->
             tool_name t <> tool_name t').
Proof.
  apply (api_agent_only_tool_is_get_weather (F:=stub_framework) stub_cfg
           module_loaded started).
  reflexivity.
Defined.

(* ===================================================================== *)
(** * More on the resolvers *)
(* ===================================================================== *)

Section ResolverCases.
Import WeatherAgent.

Ltac run_result :=
  unfold mbind, mret, result_bind, result_ret, bind, try_except in *.

Ltac by_cases_on c :=
  destruct c as [[] [] [] [] [] [] [] []]; reflexivity.

(** The timezone resolver succeeds exactly when the index knows a zone for
    the point, pytz knows that zone and the clock answers; the dict then
    carries that zone and that time.  Without a zone the error is the fixed
    message, whatever pytz and the clock would do. *)
Theorem get_local_time_info_success_iff (B : Backends) (lat lon : float) :
  exists d,
    get_local_time_info B lat lon = Return d
    /\ (d !! "status" = Some (PStr "success")
        <-> exists z tz t,
              timezone_at B lat lon = Return (Some z) /\ z <> EmptyString
              /\ pytz_timezone B z = Return tz /\ now_isoformat B tz = Return t
              /\ d !! "timezone" = Some (PStr z)
              /\ d !! "local_time" = Some (PStr t))
    /\ (timezone_at B lat lon = Return None
        \/ timezone_at B lat lon = Return (Some EmptyString) ->
        d = error_dict "Could not determine timezone for the coordinates.").
Proof.
  unfold get_local_time_info. run_result.
  destruct (timezone_at B lat lon) as [[[|c z]|]|e] eqn:Hz.
  - eexists; split; [reflexivity|split; [split|]].
    + discriminate.
    + intros (z & tz & t & [= <-] & Hne & _). congruence.
    + reflexivity.
  - destruct (pytz_timezone B (String c z)) as [tz|e] eqn:Htz.
    + destruct (now_isoformat B tz) as [t|e] eqn:Ht.
      * eexists; split; [reflexivity|split; [split|]].
        -- intros _. exists (String c z), tz, t.
           repeat split; try assumption; try reflexivity. discriminate.
        -- reflexivity.
        -- intros [|]; discriminate.
      * eexists; split; [reflexivity|split; [split|]].
        -- discriminate.
        -- intros (z0 & tz0 & t0 & [= <-] & _ & Htz0 & Ht0 & _).
           rewrite Htz in Htz0. injection Htz0 as <-. congruence.
        -- intros [|]; discriminate.
    + eexists; split; [reflexivity|split; [split|]].
      * discriminate.
      * intros (z0 & tz0 & t0 & [= <-] & _ & Htz0 & _). congruence.
      * intros [|]; discriminate.
  - eexists; split; [reflexivity|split; [split|]].
    + discriminate.
    + intros (z & tz & t & [=] & _).
    + reflexivity.
  - eexists; split; [reflexivity|split; [split|]].
    + discriminate.
    + intros (z & tz & t & [=] & _).
    + intros [|]; discriminate.
Qed.

(** The coordinate resolver succeeds exactly when the geocoder returns a
    location for the normalized query; without a match the error message
    names that query, and an exception of the geocoder is reported with its
    text. *)
Theorem get_coordinates_success_iff (py : Builtins) (B : Backends) (city country : string) :
  exists d,
    get_coordinates py B city country = Return d
    /\ (d !! "status" = Some (PStr "success")
        <-> exists loc,
              geocode B (geocoder_query py city country) = Return (Some loc)
              /\ d !! "coordinates"
                 = Some (PTuple [PFloat (latitude loc); PFloat (longitude loc)]))
    /\ (geocode B (geocoder_query py city country) = Return None ->
        d = error_dict ("Could not find coordinates for '"
                        +:+ geocoder_query py city country +:+ "'."))
    /\ (forall e, geocode B (geocoder_query py city country) = Raise e ->
        d = error_dict ("An error occurred: " +:+ str e)).
Proof.
  unfold get_coordinates. run_result.
  destruct (geocode B (geocoder_query py city country)) as [[loc|]|e] eqn:Hg;
    (eexists; split; [reflexivity|split; [split|split]]).
  - intros _. exists loc. split; reflexivity.
  - reflexivity.
  - discriminate.
  - discriminate.
  - discriminate.
  - intros (loc & [=] & _).
  - reflexivity.
  - discriminate.
  - discriminate.
  - intros (loc & [=] & _).
  - discriminate.
  - intros e0 [= <-]. reflexivity.
Qed.

(** ** The hourly range, end point anywhere *)

Lemma date_range_left_points (T T_end I : Z) :
  (0 < I)%Z -> (T < T_end)%Z ->
  date_range_left T T_end I = Return (hourly_stamps T I (points_between T T_end I)).
Proof.
  intros HI Hlt. unfold date_range_left, generate_regular_range, points_between.
  run_result.
  destruct (Z.eqb_spec I 0) as [->|_]; [lia|].
  pose proof (Z.div_mod (T_end - T) I ltac:(lia)) as Hdm.
  pose proof (Z.mod_pos_bound (T_end - T) I HI) as Hr.
  pose proof (Z.div_pos (T_end - T) I ltac:(lia) HI) as Hq.
  set (q := ((T_end - T) / I)%Z) in *. set (r := ((T_end - T) mod I)%Z) in *.
  replace (T + q * I + I / 2 + 1)%Z
    with (T + Z.of_nat (Z.to_nat q) * I + I / 2 + 1)%Z by (rewrite Z2Nat.id; lia).
  rewrite np_arange_length_hourly by assumption.
  destruct (Z.eqb_spec T T_end) as [E|_]; [lia|].
  unfold hourly_stamps at 1 2 3. rewrite seq_S, map_app. simpl.
  rewrite last_snoc, removelast_last, Z2Nat.id by lia.
  destruct (Z.eqb_spec (T + q * I) T_end) as [E|E].
  - assert (Hr0 : r = 0%Z) by lia.
    replace ((T - T_end) / I)%Z with (- q)%Z.
    + rewrite Z.opp_involutive. reflexivity.
    + apply (Z.div_unique_pos _ _ _ 0%Z); lia.
  - replace ((T - T_end) / I)%Z with (- (q + 1))%Z.
    + rewrite Z.opp_involutive, Z2Nat.inj_add by lia.
      change (Z.to_nat 1) with 1%nat. rewrite Nat.add_1_r.
      unfold hourly_stamps. rewrite seq_S, map_app. simpl.
      rewrite Z2Nat.id by lia. reflexivity.
    + apply (Z.div_unique_pos _ _ _ (I - r)%Z); lia.
Qed.

(** For a positive interval and a series end after its start, the forecast
    succeeds exactly when the number of temperatures is the number of steps
    of [start, end), the quotient rounded up; the records then pair the time
    stamps T, T+I, ... with the temperatures in order.  Any other number of
    temperatures gives the error result with the message of the data frame:
    nothing is cut or padded. *)
Theorem get_weather_forecast_series
    (B : Backends) (lat lon : float) (tz : string)
    (T T_end I : Z) (temps : list float) (others : list VariableWithValues)
    (more : list WeatherApiResponse) :
  (0 < I)%Z -> (T < T_end)%Z ->
  weather_api B FORECAST_API_URL
    {| p_latitude := lat; p_longitude := lon;
       p_hourly := "temperature_2m"; p_timezone := tz |}
  = Return ({| Hourly := Some
                 {| hourly_Time := T; hourly_TimeEnd := T_end;
                    hourly_Interval := I;
                    hourly_Variables := {| ValuesAsNumpy := temps |} :: others |} |}
            :: more) ->
  get_weather_forecast B lat lon tz
  = Return
      (if (points_between T T_end I =? length temps)%nat
       then <["status" := PStr "success"]>
              (<["coordinates" := PTuple [PFloat lat; PFloat lon]]>
                 (<["report" :=
                      PList (zip_with record (hourly_stamps T I (length temps)) temps)]> ∅))
       else error_dict
              "Failed to retrieve weather data: All arrays must be of the same length").
Proof.
  intros HI Hlt Hapi. unfold get_weather_forecast. run_result.
  rewrite Hapi. simpl. rewrite date_range_left_points by assumption.
  unfold DataFrame_new.
  replace (length (hourly_stamps T I (points_between T T_end I)))
    with (points_between T T_end I)
    by (unfold hourly_stamps; rewrite length_map, length_seq; reflexivity).
  destruct (Nat.eqb_spec (points_between T T_end I) (length temps)) as [E|E].
  - rewrite E. reflexivity.
  - reflexivity.
Qed.

(** Two values for three hours: an error; three values for a series that
    ends half an hour after the third point: three records. *)
Lemma get_weather_forecast_series_witness :
  (let B := {| timezone_at := timezone_at stub_backends;
               pytz_timezone := pytz_timezone stub_backends;
               now_isoformat := now_isoformat stub_backends;
               geocode := geocode stub_backends;
               weather_api := fun _ _ =>
                 Return [{| Hourly := Some
                              {| hourly_Time := 0; hourly_TimeEnd := 10800;
                                 hourly_Interval := 3600;
                                 hourly_Variables :=
                                   [{| ValuesAsNumpy := [1%float; 2%float] |}] |} |}] |} in
   get_weather_forecast B 1%float 2%float "UTC"
   = Return (error_dict
       "Failed to retrieve weather data: All arrays must be of the same length"))
  /\ (let B := {| timezone_at := timezone_at stub_backends;
                  pytz_timezone := pytz_timezone stub_backends;
                  now_isoformat := now_isoformat stub_backends;
                  geocode := geocode stub_backends;
                  weather_api := fun _ _ =>
                    Return [{| Hourly := Some
                                 {| hourly_Time := 0; hourly_TimeEnd := 9000;
                                    hourly_Interval := 3600;
                                    hourly_Variables :=
                                      [{| ValuesAsNumpy := [1%float; 2%float; 3%float] |}] |} |}] |} in
      get_weather_forecast B 1%float 2%float "UTC"
      = Return (<["status" := PStr "success"]>
                  (<["coordinates" := PTuple [PFloat 1%float; PFloat 2%float]]>
                     (<["report" :=
                          PList [record 0 1%float; record 3600 2%float;
                                 record 7200 3%float]]> ∅)))).
Proof.
  split; intros B.
  - apply (get_weather_forecast_series B 1%float 2%float "UTC" 0 10800 3600
             [1%float; 2%float] [] []); [lia | lia | reflexivity].
  - apply (get_weather_forecast_series B 1%float 2%float "UTC" 0 9000 3600
             [1%float; 2%float; 3%float] [] []); [lia | lia | reflexivity].
Defined.

(** ** Normalizing twice *)

Lemma isspace_to_upper c : ascii_isspace (ascii_to_upper c) = ascii_isspace c.
Proof. by_cases_on c. Qed.

Lemma is_cased_to_upper c : ascii_is_cased (ascii_to_upper c) = ascii_is_cased c.
Proof. by_cases_on c. Qed.

Lemma to_upper_idem c : ascii_to_upper (ascii_to_upper c) = ascii_to_upper c.
Proof. by_cases_on c. Qed.

Lemma isspace_not_cased c : ascii_isspace c = true -> ascii_is_cased c = false /\ ascii_to_upper c = c.
Proof. destruct c as [[] [] [] [] [] [] [] []]; (discriminate || (intros _; split; reflexivity)). Qed.

Lemma title_from_idem b s : ascii_title_from b (ascii_title_from b s) = ascii_title_from b s.
Proof.
  revert b; induction s as [|c s IH]; intros b; simpl; [reflexivity|].
  destruct b.
  - rewrite to_lower_idem, is_cased_to_lower, IH. reflexivity.
  - rewrite to_upper_idem, is_cased_to_upper, IH. reflexivity.
Qed.

Lemma title_from_empty b s : ascii_title_from b s = EmptyString -> s = EmptyString.
Proof. destruct s; [reflexivity | discriminate]. Qed.

Lemma rstrip_title_from b s : ascii_rstrip (ascii_title_from b s) = ascii_title_from b (ascii_rstrip s).
Proof.
  revert b; induction s as [|c s IH]; intros b; simpl; [reflexivity|].
  rewrite IH.
  assert (Hsp : ascii_isspace (if b then ascii_to_lower c else ascii_to_upper c) = ascii_isspace c)
    by (destruct b; [apply isspace_to_lower | apply isspace_to_upper]).
  destruct (ascii_rstrip s) as [|c' r]; simpl.
  - rewrite Hsp. destruct (ascii_isspace c); reflexivity.
  - reflexivity.
Qed.

Lemma lstrip_title s : ascii_lstrip (ascii_title s) = ascii_title (ascii_lstrip s).
Proof.
  unfold ascii_title. induction s as [|c s IH]; simpl; [reflexivity|].
  rewrite isspace_to_upper. destruct (ascii_isspace c) eqn:Hc; [|reflexivity].
  destruct (isspace_not_cased c Hc) as [-> _]. exact IH.
Qed.

Lemma strip_title s : ascii_strip (ascii_title s) = ascii_title (ascii_strip s).
Proof. unfold ascii_strip, ascii_title. rewrite rstrip_title_from. apply lstrip_title. Qed.

Lemma rstrip_idem s : ascii_rstrip (ascii_rstrip s) = ascii_rstrip s.
Proof.
  induction s as [|c s IH]; simpl; [reflexivity|].
  destruct (ascii_rstrip s) as [|c' r] eqn:E.
  - destruct (ascii_isspace c) eqn:Hc; simpl; [reflexivity | rewrite Hc; reflexivity].
  - simpl in *. rewrite IH. reflexivity.
Qed.

Lemma lstrip_idem s : ascii_lstrip (ascii_lstrip s) = ascii_lstrip s.
Proof.
  induction s as [|c s IH]; simpl; [reflexivity|].
  destruct (ascii_isspace c) eqn:Hc; [exact IH | simpl; rewrite Hc; reflexivity].
Qed.

Lemma rstrip_lstrip_fixed s : ascii_rstrip s = s -> ascii_rstrip (ascii_lstrip s) = ascii_lstrip s.
Proof.
  induction s as [|c s IH]; simpl; [reflexivity|].
  destruct (ascii_isspace c) eqn:Hc.
  - destruct (ascii_rstrip s) as [|c' r] eqn:E; [discriminate|].
    intros [= <-]. apply IH. reflexivity.
  - intros H. simpl. rewrite Hc. exact H.
Qed.

Lemma strip_idem s : ascii_strip (ascii_strip s) = ascii_strip s.
Proof.
  unfold ascii_strip.
  rewrite (rstrip_lstrip_fixed (ascii_rstrip s) (rstrip_idem s)). apply lstrip_idem.
Qed.

Lemma normalize_idem s : ascii_title (ascii_strip (ascii_title (ascii_strip s))) = ascii_title (ascii_strip s).
Proof.
  rewrite strip_title, strip_idem. unfold ascii_title. apply title_from_idem.
Qed.

(** Normalized names are fixed points: the query built from the already
    trimmed and title-cased city and country is the query built from the raw
    ones, and so is the result of the resolver.  This holds for the 7-bit
    reference built-ins on every string, and for any built-ins that agree with
    them on 7-bit text when the city and the country are such text. *)
Theorem geocoder_query_idempotent (B : Backends) (city country : string) :
  (geocoder_query ascii_builtins (ascii_title (ascii_strip city))
     (ascii_title (ascii_strip country))
   = geocoder_query ascii_builtins city country
   /\ get_coordinates ascii_builtins B (ascii_title (ascii_strip city))
        (ascii_title (ascii_strip country))
      = get_coordinates ascii_builtins B city country)
  /\ (forall py, ascii_conformant py ->
        is_ascii city = true -> is_ascii country = true ->
        geocoder_query py (str_title py (str_strip py city))
          (str_title py (str_strip py country))
        = geocoder_query py city country
        /\ get_coordinates py B (str_title py (str_strip py city))
             (str_title py (str_strip py country))
           = get_coordinates py B city country).
Proof.
  split.
  - assert (H : geocoder_query ascii_builtins (ascii_title (ascii_strip city))
                  (ascii_title (ascii_strip country))
                = geocoder_query ascii_builtins city country)
      by (unfold geocoder_query; simpl; rewrite !normalize_idem; reflexivity).
    split; [exact H|]. unfold get_coordinates. rewrite H. reflexivity.
  - intros py Hpy Hc Hk.
    assert (Hnc : is_ascii (ascii_title (ascii_strip city)) = true)
      by (unfold ascii_title; rewrite is_ascii_title_from; apply is_ascii_strip, Hc).
    assert (Hnk : is_ascii (ascii_title (ascii_strip country)) = true)
      by (unfold ascii_title; rewrite is_ascii_title_from; apply is_ascii_strip, Hk).
    assert (H : geocoder_query py (str_title py (str_strip py city))
                  (str_title py (str_strip py country))
                = geocoder_query py city country).
    { unfold geocoder_query.
      rewrite (normalize_conformant py city Hpy Hc),
              (normalize_conformant py country Hpy Hk).
      rewrite (normalize_conformant py _ Hpy Hnc), (normalize_conformant py _ Hpy Hnk).
      rewrite !normalize_idem. reflexivity. }
    split; [exact H|]. unfold get_coordinates. rewrite H. reflexivity.
Qed.

End ResolverCases.

(* ===================================================================== *)
(** * More on the query runner and its HTTP boundary *)
(* ===================================================================== *)

Section RunnerEffects.
Context {S : Type} {F : Framework S}.
Variable cfg : Config.

Ltac run_world :=
  unfold try_except_in, bind_in, ret_in, raise, lift, on_service in *; simpl in *.

Ltac count_effects :=
  repeat split;
  try reflexivity;
  try assumption;
  try (unfold constructions; simpl; lia);
  try (intros [H|H]; congruence);
  try (intros [x Hx]; eexists; reflexivity).

(** What one call of [run_query] does to the world. *)
Lemma run_query_effects (w : World S) query user_id session_id :
  let w' := snd (run_query cfg query user_id session_id w) in
  exists tr,
    trace w' = (trace w ++ tr)%list
    /\ agent w' = agent w /\ runner w' = runner w
    /\ (is_Some (session_service w) -> is_Some (session_service w'))
    /\ constructions is_call_get_session tr <= 1
    /\ constructions is_call_create_session tr <= 1
    /\ constructions is_call_runner_run tr <= 1
    /\ constructions is_startup_effect tr = 0
    /\ (runner w = None \/ session_service w = None -> w' = w).
Proof.
  unfold run_query.
  destruct (runner w) as [r|] eqn:Hr; [destruct (session_service w) as [ss|] eqn:Hss|].
  - unfold resolve_session. run_world. rewrite Hss.
    destruct (get_session _ _ _ ss) as [[[session|]|e0] ss1]; simpl;
      [ | destruct (create_session _ _ ss1) as [[session|e1] ss2]; simpl..];
      try (destruct (runner_run r _ _ _ _) as [[events|e2] ss3]; simpl;
           [destruct (process_events _ events); simpl|]);
      rewrite <- ?app_assoc; simpl; eexists; (split; [reflexivity|]);
      count_effects.
  - exists []. rewrite app_nil_r. simpl. count_effects.
    intros [x Hx]; congruence.
  - exists []. rewrite app_nil_r. simpl. count_effects. auto.
Qed.

Lemma post_query_world (b : Body) (w : World S) :
  snd (post_query cfg b w)
  = match QueryRequest_validate cfg b with
    | None => w
    | Some request =>
        snd (run_query cfg (query request) (user_id request) (session_id request) w)
    end.
Proof.
  unfold post_query. destruct (QueryRequest_validate cfg b) as [request|]; [|reflexivity].
  unfold process_query, bind_in, lift.
  destruct (run_query cfg _ _ _ w) as [[[t asid]|e] w1]; simpl.
  - destruct (QueryResponse_new t _ asid) as [resp|[c d|cls m]]; reflexivity.
  - destruct e; reflexivity.
Qed.

Lemma post_query_run_query_returns (b : Body) request (w : World S) t asid :
  QueryRequest_validate cfg b = Some request ->
  fst (run_query cfg (query request) (user_id request) (session_id request) w)
  = Return (t, asid) ->
  fst (post_query cfg b w)
  = match t with
    | Some answer =>
        Http200 {| response := answer; response_user_id := user_id request;
                   response_session_id := asid |}
    | None =>
        HttpError 500
          ("Unexpected error: "
           +:+ "1 validation error for QueryResponse: response: Input should be a valid string")
    end.
Proof.
  intros Hv Hrq. unfold post_query. rewrite Hv. unfold process_query, bind_in, lift.
  destruct (run_query cfg (query request) (user_id request) (session_id request) w)
    as [res w0].
  simpl in Hrq. subst res. destruct t; reflexivity.
Qed.

(** No request changes the globals: after any [POST /query] the agent and the
    runner are the ones from before, and a session service that was there is
    still there; so a server that was initialized stays initialized. *)
Theorem post_query_keeps_globals (b : Body) (w : World S) :
  let w' := snd (post_query cfg b w) in
  agent w' = agent w /\ runner w' = runner w
  /\ (is_Some (session_service w) -> is_Some (session_service w'))
  /\ (is_Some (runner w) -> is_Some (session_service w) ->
      is_Some (runner w') /\ is_Some (session_service w')).
Proof.
  simpl. rewrite post_query_world.
  destruct (QueryRequest_validate cfg b) as [request|].
  - destruct (run_query_effects w (query request) (user_id request) (session_id request))
      as (tr & _ & Ha & Hr & Hs & _).
    simpl in *. rewrite Ha, Hr. repeat split; auto.
  - repeat split; auto.
Qed.

(** One request is one attempt: [POST /query] looks the session up at most
    once, creates at most one session and calls [runner.run] at most once;
    it never re-runs a step of the start-up; and when the body is invalid or
    the agent is not initialized it calls nothing and leaves the world as it
    is. *)
Theorem post_query_single_attempt (b : Body) (w : World S) :
  let w' := snd (post_query cfg b w) in
  (exists tr,
     trace w' = (trace w ++ tr)%list
     /\ constructions is_call_get_session tr <= 1
     /\ constructions is_call_create_session tr <= 1
     /\ constructions is_call_runner_run tr <= 1
     /\ constructions is_startup_effect tr = 0)
  /\ (QueryRequest_validate cfg b = None \/ runner w = None
      \/ session_service w = None -> w' = w).
Proof.
  simpl. rewrite post_query_world.
  destruct (QueryRequest_validate cfg b) as [request|].
  - destruct (run_query_effects w (query request) (user_id request) (session_id request))
      as (tr & Ht & _ & _ & _ & Hg & Hc & Hr & Hs & Hw).
    simpl in *. split.
    + exists tr. auto.
    + intros [H|H]; [discriminate | apply Hw, H].
  - split; [|reflexivity].
    exists []. rewrite app_nil_r. repeat split; unfold constructions; simpl; lia.
Qed.


(** A successful answer carries the text of the agent, the user id of the
    request and the id of the session that was resolved (found or created),
    which need not be the session id of the request. *)
Theorem post_query_success_fields
    (b : Body) (request : QueryRequest) (w : World S) r ss asid ss1 ss2
    (events : EventStream) (answer : string) :
  QueryRequest_validate cfg b = Some request ->
  runner w = Some r -> session_service w = Some ss ->
  resolved cfg (user_id request) (session_id request) ss asid ss1 ->
  runner_run r (user_id request) asid (user_message (query request)) ss1
  = (Return events, ss2) ->
  process_events (Some "No response received.") events = Return (Some answer) ->
  fst (post_query cfg b w)
  = Http200 {| response := answer; response_user_id := user_id request;
               response_session_id := asid |}.
Proof.
  intros Hv Hr Hss Hres Hrun Hdrain.
  rewrite (post_query_run_query_returns b request w (Some answer) asid Hv); [reflexivity|].
  rewrite (run_query_resolved cfg w r ss _ _ _ asid ss1 events ss2) by assumption.
  rewrite Hdrain. reflexivity.
Qed.

Lemma run_query_answer_of_first_content
    (w : World S) r ss query user_id session_id asid ss1 ss2
    (pre : list Event) (event : Event) (post : EventStream) (p : Part) :
  runner w = Some r -> session_service w = Some ss ->
  resolved cfg user_id session_id ss asid ss1 ->
  runner_run r user_id asid (user_message query) ss1
  = (Return (yield_all pre (Yield event post)), ss2) ->
  Forall (fun x => flagged_final x = false \/ content_parts x = None) pre ->
  flagged_final event = true ->
  content_parts event = Some p ->
  fst (run_query cfg query user_id session_id w) = Return (text p, asid).
Proof.
  intros Hr Hss Hres Hrun Hpre Hfinal Hparts.
  rewrite (run_query_resolved cfg w r ss query user_id session_id asid ss1 _ ss2)
    by eassumption.
  rewrite process_events_before by assumption.
  simpl. rewrite Hfinal, Hparts. reflexivity.
Qed.

(** When the first final event with content has a first part without text,
    [run_query] returns [None] as the answer, the response model rejects it
    and the client gets the error 500 "Unexpected error: ...", even if a later
    event carries a text. *)
Theorem post_query_answer_without_text
    (b : Body) (request : QueryRequest) (w : World S) r ss asid ss1 ss2
    (pre : list Event) (event : Event) (post : EventStream) (p : Part) :
  QueryRequest_validate cfg b = Some request ->
  runner w = Some r -> session_service w = Some ss ->
  resolved cfg (user_id request) (session_id request) ss asid ss1 ->
  runner_run r (user_id request) asid (user_message (query request)) ss1
  = (Return (yield_all pre (Yield event post)), ss2) ->
  Forall (fun x => flagged_final x = false \/ content_parts x = None) pre ->
  flagged_final event = true -> content_parts event = Some p -> text p = None ->
  fst (run_query cfg (query request) (user_id request) (session_id request) w)
  = Return (None, asid)
  /\ exists m, fst (post_query cfg b w) = HttpError 500 ("Unexpected error: " +:+ m).
Proof.
  intros Hv Hr Hss Hres Hrun Hpre Hfinal Hparts Htext.
  assert (Hrq : fst (run_query cfg (query request) (user_id request)
                       (session_id request) w) = Return (None, asid)).
  { rewrite <- Htext.
    apply (run_query_answer_of_first_content w r ss _ _ _ asid ss1 ss2 pre event post p);
      assumption. }
  split; [exact Hrq|].
  eexists. rewrite (post_query_run_query_returns b request w None asid Hv Hrq).
  reflexivity.
Qed.

(** Final events without content do not count: when the stream is exhausted
    and no event was both flagged final and carrying content parts, the
    answer is "No response received.", however many events were flagged. *)
Theorem run_query_final_without_content
    (w : World S) r ss query user_id session_id asid ss1 ss2
    (events : EventStream) :
  runner w = Some r -> session_service w = Some ss ->
  resolved cfg user_id session_id ss asid ss1 ->
  runner_run r user_id asid (user_message query) ss1 = (Return events, ss2) ->
  exhausted_without_answer events = true ->
  fst (run_query cfg query user_id session_id w)
  = Return (Some "No response received.", asid).
Proof.
  intros Hr Hss Hres Hrun Hex.
  rewrite (run_query_resolved cfg w r ss query user_id session_id asid ss1 events ss2)
    by assumption.
  replace (process_events (Some "No response received.") events)
    with (Return (A:=option string) (Some "No response received.")); [reflexivity|].
  clear Hrun. symmetry. induction events as [|event rest IH|e]; simpl in *;
    [reflexivity| |discriminate].
  destruct (flagged_final event); [destruct (content_parts event)|];
    try discriminate; auto.
Qed.

End RunnerEffects.

(* ===================================================================== *)
(** * More on the sessions of the in-memory service *)
(* ===================================================================== *)

Section InMemoryStore.
Variable uuid4 : nat -> string.
Variable llm : LlmAgent -> string -> string -> Content -> EventStream.
Variable cfg : Config.

Local Abbreviation in_memory := (InMemory uuid4 llm).

(** A session id that the generator never draws is never found: a query with
    it adds one session, under a generated id, to the store, and the id of the
    request is as unknown afterwards as it was before; so every query that
    repeats it creates one more session. *)
Theorem run_query_unknown_id_stays_unknown
    (w : World InMemorySessionService) r ss query user_id session_id :
  runner w = Some r -> session_service w = Some ss ->
  (forall n, uuid4 n <> session_id) ->
  sessions ss !! (DEFAULT_APP_NAME cfg, user_id, session_id) = None ->
  let w' := snd (run_query (F:=in_memory) cfg query user_id session_id w) in
  let id1 := uuid4 (drawn ss) in
  exists ss',
    runner w' = Some r /\ session_service w' = Some ss'
    /\ sessions ss'
       = <[(DEFAULT_APP_NAME cfg, user_id, id1) :=
             {| s_id := id1; s_app_name := DEFAULT_APP_NAME cfg;
                s_user_id := user_id |}]> (sessions ss)
    /\ drawn ss' = Datatypes.S (drawn ss)
    /\ sessions ss' !! (DEFAULT_APP_NAME cfg, user_id, session_id) = None.
Proof.
  intros Hr Hss Hnever Hfresh w' id1. subst w'.
  unfold run_query, resolve_session. rewrite Hr, Hss.
  unfold try_except_in, bind_in, ret_in, raise, lift, on_service. simpl.
  rewrite Hss. simpl. unfold in_memory_get_session. rewrite Hfresh. simpl.
  unfold in_memory_runner_run. simpl.
  eexists.
  destruct (_ !! (r_app_name r, user_id, uuid4 (drawn ss))); simpl;
    [destruct (process_events _ _); simpl|];
    (split; [exact Hr|split; [reflexivity|split; [reflexivity|split; [reflexivity|]]]]);
    simpl; (rewrite lookup_insert_ne; [exact Hfresh|]);
    intros [= E]; exact (Hnever _ E).
Qed.

(** Sessions belong to a user: the id that a first query of one user got back
    is not found for another user; the query of the other user creates a
    session of its own, under the next generated id. *)
Theorem run_query_session_id_per_user
    (w : World InMemorySessionService) r ss query query'
    user_a user_b session_id :
  runner w = Some r -> r_app_name r = DEFAULT_APP_NAME cfg ->
  session_service w = Some ss ->
  user_a <> user_b ->
  sessions ss !! (DEFAULT_APP_NAME cfg, user_a, session_id) = None ->
  sessions ss !! (DEFAULT_APP_NAME cfg, user_b, uuid4 (drawn ss)) = None ->
  (forall a u s m, drains (llm a u s m) = true) ->
  let id1 := uuid4 (drawn ss) in
  let id2 := uuid4 (Datatypes.S (drawn ss)) in
  exists t1 w1 t2 w2,
    run_query (F:=in_memory) cfg query user_a session_id w = (Return (t1, id1), w1)
    /\ run_query (F:=in_memory) cfg query' user_b id1 w1 = (Return (t2, id2), w2)
    /\ trace w2
       = (trace w1 ++ [call_get_session (DEFAULT_APP_NAME cfg) user_b id1;
                       call_create_session (DEFAULT_APP_NAME cfg) user_b;
                       call_runner_run user_b id2 (user_message query')])%list.
Proof.
  intros Hr Happ Hss Hne Hfresh_a Hfresh_b Hllm id1 id2.
  set (app := DEFAULT_APP_NAME cfg) in *.
  set (sa := {| s_id := id1; s_app_name := app; s_user_id := user_a |}).
  set (sb := {| s_id := id2; s_app_name := app; s_user_id := user_b |}).
  set (ss1 := {| sessions := <[(app, user_a, id1) := sa]> (sessions ss);
                 drawn := Datatypes.S (drawn ss) |}).
  set (ss2 := {| sessions := <[(app, user_b, id2) := sb]> (sessions ss1);
                 drawn := Datatypes.S (drawn ss1) |}).
  assert (Hrun1 : runner_run (Framework:=in_memory) r user_a id1 (user_message query) ss1
                  = (Return (llm (r_agent r) user_a id1 (user_message query)), ss1)).
  { simpl. unfold in_memory_runner_run. rewrite Happ. fold app.
    simpl. rewrite lookup_insert_eq. reflexivity. }
  assert (Hrun2 : runner_run (Framework:=in_memory) r user_b id2 (user_message query') ss2
                  = (Return (llm (r_agent r) user_b id2 (user_message query')), ss2)).
  { simpl. unfold in_memory_runner_run. rewrite Happ. fold app.
    simpl. rewrite lookup_insert_eq. reflexivity. }
  destruct (process_events_drains (llm (r_agent r) user_a id1 (user_message query))
              (Some "No response received.") (Hllm _ _ _ _)) as [t1 Ht1].
  destruct (process_events_drains (llm (r_agent r) user_b id2 (user_message query'))
              (Some "No response received.") (Hllm _ _ _ _)) as [t2 Ht2].
  exists t1. eexists. exists t2. eexists.
  split; [|split].
  - eapply (run_query_created (F:=in_memory) cfg w r ss query user_a session_id ss sa ss1);
      [exact Hr | exact Hss | right | reflexivity | exact Hrun1 | exact Ht1].
    simpl. unfold in_memory_get_session. fold app. rewrite Hfresh_a. reflexivity.
  - eapply (run_query_created (F:=in_memory) cfg _ r ss1 query' user_b id1 ss1 sb ss2);
      [exact Hr | reflexivity | right | reflexivity | exact Hrun2 | exact Ht2].
    simpl. unfold in_memory_get_session. fold app. simpl.
    rewrite lookup_insert_ne by congruence. unfold id1. rewrite Hfresh_b. reflexivity.
  - reflexivity.
Qed.

End InMemoryStore.

Lemma stub_uuid4_prefix n : exists rest, stub_uuid4 n = String "u" rest.
Proof. eexists. reflexivity. Qed.

Lemma run_query_unknown_id_stays_unknown_witness :
  exists ss',
    runner (snd (run_query (F:=stub_framework) stub_cfg "Weather in Berlin?"
                   "default_user" "default_session" started)) = Some stub_runner
    /\ session_service (snd (run_query (F:=stub_framework) stub_cfg "Weather in Berlin?"
                               "default_user" "default_session" started)) = Some ss'
    /\ sessions ss'
       = <[("weather_app", "default_user", stub_uuid4 0) :=
             {| s_id := stub_uuid4 0; s_app_name := "weather_app";
                s_user_id := "default_user" |}]> (sessions empty_service)
    /\ drawn ss' = 1
    /\ sessions ss' !! ("weather_app", "default_user", "default_session") = None.
Proof.
  apply (run_query_unknown_id_stays_unknown stub_uuid4 stub_llm stub_cfg started
           stub_runner empty_service "Weather in Berlin?" "default_user"
           "default_session").
  - reflexivity.
  - reflexivity.
  - intros n. destruct (stub_uuid4_prefix n) as [rest ->]. discriminate.
  - reflexivity.
Defined.

Lemma run_query_session_id_per_user_witness :
  exists t1 w1 t2 w2,
    run_query (F:=stub_framework) stub_cfg "Weather in Berlin?" "alice" "chat-1" started
    = (Return (t1, stub_uuid4 0), w1)
    /\ run_query (F:=stub_framework) stub_cfg "And in Paris?" "bob" (stub_uuid4 0) w1
       = (Return (t2, stub_uuid4 1), w2)
    /\ trace w2
       = (trace w1 ++ [call_get_session "weather_app" "bob" (stub_uuid4 0);
                       call_create_session "weather_app" "bob";
                       call_runner_run "bob" (stub_uuid4 1)
                         (user_message "And in Paris?")])%list.
Proof.
  apply (run_query_session_id_per_user stub_uuid4 stub_llm stub_cfg started
           stub_runner empty_service "Weather in Berlin?" "And in Paris?"
           "alice" "bob" "chat-1").
  - reflexivity.
  - reflexivity.
  - reflexivity.
  - discriminate.
  - reflexivity.
  - reflexivity.
  - intros a u s0 m. reflexivity.
Defined.


(* ===================================================================== *)
(** * More runs on stubbed collaborators *)
(* ===================================================================== *)

Lemma post_query_success_fields_witness :
  fst (post_query (F:=stub_framework) stub_cfg (body "Weather in Berlin?") started)
  = Http200 {| response := "It is sunny."; response_user_id := "default_user";
               response_session_id := "uuid-0" |}.
Proof.
  apply (post_query_success_fields (F:=stub_framework) stub_cfg
           (body "Weather in Berlin?")
           {| query := "Weather in Berlin?"; user_id := "default_user";
              session_id := "default_session" |}
           started stub_runner empty_service "uuid-0"
           (snd (in_memory_create_session stub_uuid4 "weather_app" "default_user"
                   empty_service))
           (snd (in_memory_create_session stub_uuid4 "weather_app" "default_user"
                   empty_service))
           (stub_llm stub_agent "default_user" "uuid-0" (user_message "Weather in Berlin?"))
           "It is sunny.").
  - reflexivity.
  - reflexivity.
  - reflexivity.
  - apply (resolved_created (F:=stub_framework) stub_cfg "default_user"
             "default_session" empty_service
             {| s_id := "uuid-0"; s_app_name := "weather_app";
                s_user_id := "default_user" |} empty_service).
    + right. reflexivity.
    + reflexivity.
  - reflexivity.
  - reflexivity.
Defined.

Lemma post_query_answer_without_text_witness :
  fst (run_query (F:=textless_framework) stub_cfg "Weather in Berlin?"
         "default_user" "default_session" started)
  = Return (None, "uuid-0")
  /\ exists m,
       fst (post_query (F:=textless_framework) stub_cfg (body "Weather in Berlin?") started)
       = HttpError 500 ("Unexpected error: " +:+ m).
Proof.
  apply (post_query_answer_without_text (F:=textless_framework) stub_cfg
           (body "Weather in Berlin?")
           {| query := "Weather in Berlin?"; user_id := "default_user";
              session_id := "default_session" |}
           started stub_runner empty_service "uuid-0"
           (snd (in_memory_create_session stub_uuid4 "weather_app" "default_user"
                   empty_service))
           (snd (in_memory_create_session stub_uuid4 "weather_app" "default_user"
                   empty_service))
           []
           {| is_final_response := Some true;
              content := Some {| role := "model"; parts := [{| text := None |}] |} |}
           (Yield (text_event true "It is sunny.") Exhausted)
           {| text := None |}).
  - reflexivity.
  - reflexivity.
  - reflexivity.
  - apply (resolved_created (F:=textless_framework) stub_cfg "default_user"
             "default_session" empty_service
             {| s_id := "uuid-0"; s_app_name := "weather_app";
                s_user_id := "default_user" |} empty_service).
    + right. reflexivity.
    + reflexivity.
  - reflexivity.
  - constructor.
  - reflexivity.
  - reflexivity.
  - reflexivity.
Defined.

Lemma run_query_final_without_content_witness :
  fst (run_query (F:=bare_final_framework) stub_cfg "Weather in Berlin?" "alice"
         "chat-1" started)
  = Return (Some "No response received.", "uuid-0").
Proof.
  apply (run_query_final_without_content (F:=bare_final_framework) stub_cfg started
           stub_runner empty_service "Weather in Berlin?" "alice" "chat-1" "uuid-0"
           (snd (in_memory_create_session stub_uuid4 "weather_app" "alice" empty_service))
           (snd (in_memory_create_session stub_uuid4 "weather_app" "alice" empty_service))
           (bare_final_llm stub_agent "alice" "uuid-0" (user_message "Weather in Berlin?"))).
  - reflexivity.
  - reflexivity.
  - apply (resolved_created (F:=bare_final_framework) stub_cfg "alice" "chat-1"
             empty_service
             {| s_id := "uuid-0"; s_app_name := "weather_app"; s_user_id := "alice" |}
             empty_service).
    + right. reflexivity.
    + reflexivity.
  - reflexivity.
  - reflexivity.
Defined.

(* ===================================================================== *)
(** * The answer and the first text; the empty series *)
(* ===================================================================== *)

(** C4 fails as stated: the first final event with a text that is not empty
    says "It is sunny.", but the final event before it has a part without
    text; the loop stops there and the answer is [None]. *)
Lemma run_query_first_text_not_returned :
  let events :=
    textless_llm stub_agent "alice" "uuid-0" (user_message "Weather in Berlin?") in
  let out :=
    fst (run_query (F:=textless_framework) stub_cfg "Weather in Berlin?" "alice"
           "chat-1" started) in
  first_final_text events = Some "It is sunny."
  /\ fst (runner_run (Framework:=textless_framework) stub_runner "alice" "uuid-0"
            (user_message "Weather in Berlin?")
            (snd (in_memory_create_session stub_uuid4 "weather_app" "alice"
                    empty_service)))
     = Return events
  /\ out = Return (None, "uuid-0")
  /\ out <> Return (first_final_text events, "uuid-0").
Proof.
  intros events out.
  assert (Hout : out = Return (None, "uuid-0")) by (vm_compute; reflexivity).
  split; [reflexivity|split; [reflexivity|split; [exact Hout|]]].
  rewrite Hout. discriminate.
Qed.

(** C7 fails as stated: for a series without values (N = 0, so that the end
    is the start) the range still holds the start, the data frame refuses the
    two lengths, and the result is an error, not a success with no record. *)
Lemma get_weather_forecast_empty_series :
  WeatherAgent.weather_api empty_series_backends WeatherAgent.FORECAST_API_URL
    {| WeatherAgent.p_latitude := 51.5%float; WeatherAgent.p_longitude := (-0.125)%float;
       WeatherAgent.p_hourly := "temperature_2m";
       WeatherAgent.p_timezone := "Europe/London" |}
  = Return [{| WeatherAgent.Hourly := Some
                 {| WeatherAgent.hourly_Time := 1700000000;
                    WeatherAgent.hourly_TimeEnd := 1700000000 + Z.of_nat 0 * 3600;
                    WeatherAgent.hourly_Interval := 3600;
                    WeatherAgent.hourly_Variables :=
                      [{| WeatherAgent.ValuesAsNumpy := [] |}] |} |}]
  /\ WeatherAgent.get_weather_forecast empty_series_backends 51.5%float
       (-0.125)%float "Europe/London"
     = Return (WeatherAgent.error_dict
         "Failed to retrieve weather data: All arrays must be of the same length")
  /\ ~ (exists d,
          WeatherAgent.get_weather_forecast empty_series_backends 51.5%float
            (-0.125)%float "Europe/London" = Return d
          /\ d !! "status" = Some (PStr "success")).
Proof.
  assert (H : WeatherAgent.get_weather_forecast empty_series_backends 51.5%float
                (-0.125)%float "Europe/London"
              = Return (WeatherAgent.error_dict
                  "Failed to retrieve weather data: All arrays must be of the same length"))
    by reflexivity.
  split; [reflexivity|split; [exact H|]].
  intros (d & Hd & Hs). rewrite H in Hd. injection Hd as <-. discriminate Hs.
Qed.
